(** * llama3.2_OCR: the stripe splitter and the OCR pipeline of
      [src/ocr_processor.py], [config/settings.py] and [app.py]

    The Python code is embedded function by function.  Python [int] is [Z],
    Python [float] is IEEE-754 binary64 as specified by the Standard
    Library's [SpecFloat] (round to nearest, ties to even), Python [str] is a
    list of Unicode code points, and every call that can raise returns a
    [result]. *)

From Stdlib Require Import ZArith NArith List Bool Lia String Ascii.
From Stdlib Require Import DecimalString.
From Stdlib Require Import Floats.SpecFloat.
From stdpp Require Import base option list countable gmap.
Import ListNotations.
Local Open Scope Z_scope.

(** ** Exceptions and fallible results *)

Inductive exn : Type :=
| ZeroDivisionError
| ValueError
| OverflowError
| OSError
| GroqError.

Inductive result (A : Type) : Type :=
| Ok (a : A)
| Raise (e : exn).
Arguments Ok {A} a.
Arguments Raise {A} e.

Definition bind {A B : Type} (r : result A) (k : A -> result B) : result B :=
  match r with
  | Ok a => k a
  | Raise e => Raise e
  end.

Notation "x <- r ;; k" := (bind r (fun x => k))
  (at level 100, r at next level, right associativity).

Definition is_ok {A : Type} (r : result A) : bool :=
  match r with Ok _ => true | Raise _ => false end.

(** ** Python floats: binary64 *)

Module PyFloat.

Definition prec : Z := 53.
Definition emax : Z := 1024.

Definition float : Type := spec_float.

(** [float(n)] for a Python [int]: correctly rounded, [OverflowError] when
    the rounded value does not fit a double. *)
Definition of_int (n : Z) : result float :=
  match binary_normalize prec emax n 0 false with
  | S754_infinity _ => Raise OverflowError
  | x => Ok x
  end.

Definition mul (x y : float) : float := SFmul prec emax x y.

(** [n * y] with [n] an [int] and [y] a [float]: [float.__rmul__] converts
    the integer first. *)
Definition int_mul (n : Z) (y : float) : result float :=
  x <- of_int n ;; Ok (mul x y).

(** [int(x)]: truncation towards zero; infinities and NaN raise. *)
Definition to_int (x : float) : result Z :=
  match x with
  | S754_zero _ => Ok 0
  | S754_infinity _ => Raise OverflowError
  | S754_nan => Raise ValueError
  | S754_finite s m e =>
      let a := Z.shiftl (Zpos m) e in
      Ok (if s then - a else a)
  end.

(** The mathematical floor of a float's value, where it has one. *)
Definition floor (x : float) : option Z :=
  match x with
  | S754_zero _ => Some 0
  | S754_finite s m e =>
      Some (Z.shiftl (if s then Zneg m else Zpos m) e)
  | _ => None
  end.

Definition leb (x y : float) : bool := SFleb x y.

Definition zero : float := S754_zero false.
Definition one : float := S754_finite false 4503599627370496 (-52).

(** The literals the code and the claims use, as the doubles Python reads
    them to. *)
Definition lit_0_1 : float := S754_finite false 7205759403792794 (-56).
Definition lit_1_1 : float := S754_finite false 4953959590107546 (-52).
Definition lit_neg_0_1 : float := S754_finite true 7205759403792794 (-56).
Definition lit_0_7 : float := S754_finite false 6305039478318694 (-53).

(** A Python float is always a valid binary64 datum. *)
Definition valid (x : float) : bool := valid_binary prec emax x.

(** [0 <= f <= 1] as Python evaluates it. *)
Definition in_unit_interval (f : float) : bool :=
  leb zero f && leb f one.

End PyFloat.

(** ** Stripe splitter ([OCRProcessor.split_image_into_horizontal_stripes]) *)

(** A PIL image as the splitter sees it: [image.size].  PIL keeps both
    dimensions in a C [int]. *)
Record Image : Type := { width : Z; height : Z }.

Definition size (image : Image) : Z * Z := (width image, height image).

Definition image_ok (image : Image) : Prop :=
  0 <= width image < 2 ^ 31 /\ 0 <= height image < 2 ^ 31.

(** A stripe is the sub-image [image.crop((left, upper, right, lower))]; it is
    identified with the region it was cut from. *)
Record Stripe : Type :=
  { left : Z; upper : Z; right : Z; lower : Z }.

(** [Image.crop]: PIL rejects a box whose right edge is left of its left edge
    or whose lower edge is above its upper edge; a box that leaves the image
    is accepted. *)
Definition crop (image : Image) (box : Z * Z * Z * Z) : result Stripe :=
  let '(l, u, r, d) := box in
  if r <? l then Raise ValueError
  else if d <? u then Raise ValueError
  else Ok {| left := l; upper := u; right := r; lower := d |}.

(** [a // b] on Python integers. *)
Definition floordiv (a b : Z) : result Z :=
  if b =? 0 then Raise ZeroDivisionError else Ok (a / b).

(** [range(n)]. *)
Definition range (n : Z) : list Z := Z.of_nat <$> seq 0 (Z.to_nat n).

(** [for x in xs: acc.append(body(x))], started from the list [acc]. *)
Fixpoint for_append {A B : Type} (body : A -> result B) (xs : list A)
    (acc : list B) : result (list B) :=
  match xs with
  | [] => Ok acc
  | x :: rest => y <- body x ;; for_append body rest (acc ++ [y])
  end.

(** [int(stripe_height * overlap)]. *)
Definition overlap_height_of (stripe_height : Z) (overlap : PyFloat.float)
  : result Z :=
  p <- PyFloat.int_mul stripe_height overlap ;; PyFloat.to_int p.

(** The body of the loop, for stripe index [i]. *)
Definition stripe_at (image : Image) (stripe_height overlap_height i : Z)
  : result Stripe :=
  let '(width, height) := size image in
  let upper := Z.max (i * stripe_height - overlap_height) 0 in
  let lower := Z.min ((i + 1) * stripe_height + overlap_height) height in
  crop image (0, upper, width, lower).

Definition split_image_into_horizontal_stripes
    (image : Image) (stripe_count : Z) (overlap : PyFloat.float)
  : result (list Stripe) :=
  stripe_height <- floordiv (height image) stripe_count ;;
  overlap_height <- overlap_height_of stripe_height overlap ;;
  for_append (stripe_at image stripe_height overlap_height)
             (range stripe_count) [].

(** The defaults of the signature: [stripe_count = 5], [overlap = 0.1]. *)
Definition default_stripe_count : Z := 5.
Definition default_overlap : PyFloat.float := PyFloat.lit_0_1.

(** ** Python strings *)

(** A [str] is a sequence of Unicode code points. *)
Definition str : Type := list N.

(** Reading of a source literal, written here in UTF-8. *)
Fixpoint utf8_from (s : string) (acc : N) (pending : nat) : str :=
  match s with
  | EmptyString => []
  | String a rest =>
      let b := N_of_ascii a in
      match pending with
      | O =>
          if (b <? 128)%N then b :: utf8_from rest 0%N 0%nat
          else if (b <? 224)%N then utf8_from rest (b - 192)%N 1%nat
          else if (b <? 240)%N then utf8_from rest (b - 224)%N 2%nat
          else utf8_from rest (b - 240)%N 3%nat
      | S O => (acc * 64 + (b - 128))%N :: utf8_from rest 0%N 0%nat
      | S k => utf8_from rest (acc * 64 + (b - 128))%N k
      end
  end.

Definition utf8 (s : string) : str := utf8_from s 0%N 0%nat.

(** [str.isspace] on one character: the code points Python treats as
    whitespace. *)
Definition isspace (c : N) : bool :=
  ((9 <=? c) && (c <=? 13) || (28 <=? c) && (c <=? 32) || (c =? 133)
   || (c =? 160) || (c =? 5760) || (8192 <=? c) && (c <=? 8202)
   || (c =? 8232) || (c =? 8233) || (c =? 8239) || (c =? 8287)
   || (c =? 12288))%N.

Fixpoint lstrip (s : str) : str :=
  match s with
  | [] => []
  | c :: rest => if isspace c then lstrip rest else s
  end.

Definition rstrip (s : str) : str := rev (lstrip (rev s)).

(** [s.strip()]. *)
Definition strip (s : str) : str := rstrip (lstrip s).

(** [sep.join(xs)]. *)
Fixpoint join (sep : str) (xs : list str) : str :=
  match xs with
  | [] => []
  | x :: rest =>
      match rest with
      | [] => x
      | _ :: _ => x ++ sep ++ join sep rest
      end
  end.

(** ** [base64.b64encode] *)

Definition bytes : Type := list N.

Definition b64_char (v : N) : N :=
  (if v <? 26 then 65 + v
   else if v <? 52 then 71 + v
   else if v <? 62 then v - 4
   else if v =? 62 then 43
   else 47)%N.

Fixpoint b64encode (bs : bytes) : bytes :=
  match bs with
  | [] => []
  | a :: [] =>
      [b64_char (a / 4); b64_char ((a mod 4) * 16); 61; 61]%N
  | a :: b :: [] =>
      [b64_char (a / 4); b64_char ((a mod 4) * 16 + b / 16);
       b64_char ((b mod 16) * 4); 61]%N
  | a :: b :: c :: rest =>
      [b64_char (a / 4); b64_char ((a mod 4) * 16 + b / 16);
       b64_char ((b mod 16) * 4 + c / 64); b64_char (c mod 64)]%N
      ++ b64encode rest
  end.

(** [bs.decode("utf-8")] on base64 output, which is ASCII. *)
Definition decode_ascii (bs : bytes) : str := bs.

(** ** Configuration ([config/settings.py]) *)

(** [load_dotenv]: variables of the [.env] file enter the process
    environment unless already set there. *)
Definition load_dotenv (dotenv environ : gmap str str) : gmap str str :=
  environ ∪ dotenv.

Definition getenv (environ : gmap str str) (name : str) : option str :=
  environ !! name.

Definition GROQ_API_KEY (dotenv environ : gmap str str) : option str :=
  getenv (load_dotenv dotenv environ) (utf8 "GROQ_API_KEY").

(** ** The OCR pipeline ([OCRProcessor]) *)

Record OCRProcessor : Type := { groq_api_key : option str }.

(** [OCRProcessor.__init__]. *)
Definition OCRProcessor_init (key : option str) : OCRProcessor :=
  {| groq_api_key := key |}.

(** [app.py] at import: the settings module is loaded, then
    [ocr_processor = OCRProcessor()]. *)
Definition startup (dotenv environ : gmap str str) : result OCRProcessor :=
  Ok (OCRProcessor_init (GROQ_API_KEY dotenv environ)).

(** The keyword arguments of [ChatGroq(...)]. *)
Record ChatGroq : Type :=
  { api_key : option str;
    model_name : str;
    temperature : Z;
    max_retries : Z }.

Inductive content_part : Type :=
| text_part (text : str)
| image_url_part (url : str).

Inductive content : Type :=
| content_str (s : str)
| content_parts (parts : list content_part).

Record message : Type := { role : str; message_content : content }.

(** One remote call: the client it went through and the messages sent. *)
Record request : Type := { client : ChatGroq; messages : list message }.

(** Effects of the pipeline: the remote calls issued so far are threaded
    through, and a raise keeps them. *)
Definition io (A : Type) : Type := list request -> result A * list request.

Definition io_ret {A : Type} (a : A) : io A := fun log => (Ok a, log).

Definition io_raise {A : Type} (e : exn) : io A := fun log => (Raise e, log).

Definition io_bind {A B : Type} (m : io A) (k : A -> io B) : io B :=
  fun log =>
    match m log with
    | (Ok a, log') => k a log'
    | (Raise e, log') => (Raise e, log')
    end.

Definition io_lift {A : Type} (r : result A) : io A := fun log => (r, log).

Notation "x <~ m ;; k" := (io_bind m (fun x => k))
  (at level 100, m at next level, right associativity).

Definition default_ocr_model : str := utf8 "llama-3.2-90b-vision-preview".
Definition default_table_model : str := utf8 "llama-3.3-70b-versatile".

(** The instruction of [ocr], as the triple-quoted literal reads. *)
Definition ocr_prompt : str := utf8 "
                            A imagem contém texto impresso e anotações manuscritas. Sua tarefa é extrair
                            cuidadosamente todo o conteúdo textual, incluindo elementos manuscritos.
                            Sempre retorne o texto em português do Brasil (pt-BR).
                        ".

(** The f-string of [format_to_table], before and after
    [{combined_markdown}]. *)
Definition table_prompt_head : str := utf8 "
                    Você recebeu vários outputs em markdown extraídos de seções sobrepostas de uma imagem.
                    Algumas seções podem conter informações duplicadas ou conflitantes devido à sobreposição.
                    Sua tarefa é:
                    1. Identificar e consolidar linhas de dados que estão relacionadas, garantindo que a versão mais completa da informação seja mantida.
                    2. Para linhas com informações conflitantes (por exemplo, valores diferentes para um campo), priorize a entrada mais detalhada.
                    3. Se um campo está faltando em uma linha mas está presente em outra, combine as informações em uma única linha.
                    4. Produza os dados consolidados em um formato tabular limpo usando a sintaxe Markdown, adequada para renderização direta.
                    5. Somente saída Markdown: Retorne apenas o conteúdo em Markdown sem nenhuma explicação ou comentário adicional.
                    Aqui está o conteúdo a ser processado: ".

Definition table_prompt_tail : str := utf8 "
                ".

Definition table_prompt (combined_markdown : str) : str :=
  table_prompt_head ++ combined_markdown ++ table_prompt_tail.

Section Pipeline.

(** What the code leaves to its libraries: PIL's image type and codec, the
    construction of the Groq client, and the remote model itself, which
    may answer by what it has been asked before. *)
Variable picture : Type.
Variable pil_convert : picture -> str -> result picture.
Variable pil_save : picture -> str -> Z -> result bytes.
Variable chat_groq_init : ChatGroq -> result unit.
Variable remote : list request -> request -> result str.

(** [ChatGroq(groq_api_key=..., model_name=..., temperature=0,
    max_retries=3)]. *)
Definition new_ChatGroq (key : option str) (model : str) : io ChatGroq :=
  let c := {| api_key := key; model_name := model;
              temperature := 0; max_retries := 3 |} in
  io_lift (_ <- chat_groq_init c ;; Ok c).

(** [groq_llm.invoke(messages).content]: the call is recorded whether it
    succeeds or not. *)
Definition invoke (groq_llm : ChatGroq) (msgs : list message) : io str :=
  fun log =>
    let req := {| client := groq_llm; messages := msgs |} in
    (remote log req, log ++ [req]).

(** [io.BytesIO()], [write] and [getvalue]. *)
Definition BytesIO : bytes := [].
Definition write (buffered data : bytes) : bytes := buffered ++ data.
Definition getvalue (buffered : bytes) : bytes := buffered.

Definition encode_image_pil (self : OCRProcessor) (image : picture)
  : io str :=
  let buffered := BytesIO in
  image <~ io_lift (pil_convert image (utf8 "RGB")) ;;
  data <~ io_lift (pil_save image (utf8 "JPEG") 90) ;;
  let buffered := write buffered data in
  io_ret (decode_ascii (b64encode (getvalue buffered))).

Definition ocr (self : OCRProcessor) (image : picture) (model : str)
  : io str :=
  groq_llm <~ new_ChatGroq (groq_api_key self) model ;;
  encoded <~ encode_image_pil self image ;;
  let image_data_url := utf8 "data:image/jpeg;base64," ++ encoded in
  let messages :=
    [ {| role := utf8 "user";
         message_content :=
           content_parts [ text_part ocr_prompt;
                           image_url_part image_data_url ] |} ] in
  response <~ invoke groq_llm messages ;;
  io_ret (strip response).

Definition format_to_table (self : OCRProcessor) (markdown_runs : list str)
    (model : str) : io str :=
  groq_llm <~ new_ChatGroq (groq_api_key self) model ;;
  let combined_markdown := join (utf8 "

") markdown_runs in
  let messages :=
    [ {| role := utf8 "user";
         message_content := content_str (table_prompt combined_markdown) |} ] in
  response <~ invoke groq_llm messages ;;
  io_ret (strip response).

End Pipeline.

Arguments encode_image_pil {picture} pil_convert pil_save self image log.
Arguments ocr {picture} pil_convert pil_save chat_groq_init remote
  self image model log.

(** ** What the specification says of the splitter *)

(** The bounds the specification gives stripe [i], from the base stripe
    height and the overlap height. *)
Definition stripe_bounds (imageWidth imageHeight baseStripeHeight
    overlapHeight i : Z) : Stripe :=
  {| left := 0;
     upper := Z.max (i * baseStripeHeight - overlapHeight) 0;
     right := imageWidth;
     lower := Z.min ((i + 1) * baseStripeHeight + overlapHeight) imageHeight |}.

(** The specification's overlap height, [floor (baseStripeHeight * f)]: the
    floor of the exact product, [f] being the number the double stands
    for. *)
Definition exact_floor_product (h : Z) (f : PyFloat.float) : option Z :=
  match f with
  | S754_zero _ => Some 0
  | S754_finite s m e => Some (Z.shiftl (h * (if s then Zneg m else Zpos m)) e)
  | _ => None
  end.

(** The exact product rounded up to an integer. *)
Definition exact_ceil_product (h : Z) (f : PyFloat.float) : option Z :=
  match f with
  | S754_zero _ => Some 0
  | S754_finite s m e =>
      Some (- Z.shiftl (- (h * (if s then Zneg m else Zpos m))) e)
  | _ => None
  end.

(** The stripes as the specification words them, with the overlap height
    the floor of the exact product. *)
Definition specified_stripes (image : Image) (n : Z) (f : PyFloat.float)
    (stripes : list Stripe) : Prop :=
  let baseStripeHeight := height image / n in
  exists overlapHeight,
    exact_floor_product baseStripeHeight f = Some overlapHeight /\
    length stripes = Z.to_nat n /\
    forall i : nat, (i < Z.to_nat n)%nat ->
      stripes !! i
      = Some (stripe_bounds (width image) (height image) baseStripeHeight
                overlapHeight (Z.of_nat i)).

(** The row range [[upper, lower)] of a stripe. *)
Definition rows (s : Stripe) : Z * Z := (upper s, lower s).

(** Whether row [y] lies in stripe [s], and in some stripe of a list. *)
Definition has_row (s : Stripe) (y : Z) : bool :=
  (upper s <=? y) && (y <? lower s).

Definition covers (stripes : list Stripe) (y : Z) : bool :=
  existsb (fun s => has_row s y) stripes.


(** ** What the pipeline sends *)

(** The client both methods construct. *)
Definition groq_client (key : option str) (model : str) : ChatGroq :=
  {| api_key := key; model_name := model; temperature := 0; max_retries := 3 |}.

(** The one request of [format_to_table]. *)
Definition table_request (key : option str) (model : str)
    (markdown_runs : list str) : request :=
  {| client := groq_client key model;
     messages :=
       [ {| role := utf8 "user";
            message_content :=
              content_str (table_prompt (join [10; 10]%N markdown_runs)) |} ] |}.

(** The one request of [ocr], for the base64 text of the encoded image. *)
Definition ocr_request (key : option str) (model : str) (encoded : str)
  : request :=
  {| client := groq_client key model;
     messages :=
       [ {| role := utf8 "user";
            message_content :=
              content_parts
                [ text_part ocr_prompt;
                  image_url_part (utf8 "data:image/jpeg;base64," ++ encoded) ] |} ] |}.

(** The specification's words for the combined text: the texts in order, a
    blank line before every text but the first. *)
Definition combined_text (texts : list str) : str :=
  match texts with
  | [] => []
  | first :: others => first ++ concat ((fun t => [10; 10]%N ++ t) <$> others)
  end.

(** Stand-ins for the libraries, to run the pipeline on: a client
    constructor that accepts every configuration, one that insists on a key,
    a remote model with a canned answer, and a codec on pictures that are
    their own bytes. *)
Definition accept_any (c : ChatGroq) : result unit := Ok tt.

Definition require_key (c : ChatGroq) : result unit :=
  match api_key c with Some _ => Ok tt | None => Raise GroqError end.

Definition canned (answer : str) (log : list request) (r : request)
  : result str := Ok answer.

Definition raw_convert (image : bytes) (mode : str) : result bytes := Ok image.

Definition raw_save (image : bytes) (format : str) (quality : Z)
  : result bytes := Ok image.

(** A processor, two extracted texts and a model answer to run examples
    on. *)
Definition sample_processor : OCRProcessor :=
  {| groq_api_key := Some (utf8 "key") |}.

Definition sample_runs : list str :=
  [utf8 "Name: Ana, Age: 30"; utf8 "Name: Ana, Age: __"].

Definition sample_answer : str := utf8 "  | Name | Age |
".

(** ** The application ([app.py]) *)

(** [s.encode("utf-8")]; a surrogate cannot be encoded
    ([UnicodeEncodeError], a [ValueError]). *)
Definition encode_utf8_char (c : N) : result bytes :=
  (if c <? 128 then Ok [c]
   else if c <? 2048 then Ok [192 + c / 64; 128 + c mod 64]
   else if (55296 <=? c) && (c <=? 57343) then Raise ValueError
   else if c <? 65536 then
     Ok [224 + c / 4096; 128 + (c / 64) mod 64; 128 + c mod 64]
   else if c <? 1114112 then
     Ok [240 + c / 262144; 128 + (c / 4096) mod 64; 128 + (c / 64) mod 64;
         128 + c mod 64]
   else Raise ValueError)%N.

Fixpoint encode_utf8 (s : str) : result bytes :=
  match s with
  | [] => Ok []
  | c :: rest =>
      b <- encode_utf8_char c ;;
      bs <- encode_utf8 rest ;;
      Ok (b ++ bs)
  end.

(** [str(n)] for an integer. *)
Definition str_of_int (n : Z) : str :=
  utf8 (NilZero.string_of_int (Z.to_int n)).

(** [a / b] on two integers that a double holds exactly (below 2^53, as
    every step count here is): the quotient of the two doubles. *)
Definition true_div (a b : Z) : result PyFloat.float :=
  if b =? 0 then Raise ZeroDivisionError
  else
    x <- PyFloat.of_int a ;;
    y <- PyFloat.of_int b ;;
    Ok (SFdiv PyFloat.prec PyFloat.emax x y).

(** [x * n] with [x] a [float] and [n] an [int]. *)
Definition float_mul_int (x : PyFloat.float) (n : Z) : result PyFloat.float :=
  y <- PyFloat.of_int n ;; Ok (PyFloat.mul x y).

(** The literal [1.2] of the resize, as the double Python reads it to. *)
Definition lit_1_2 : PyFloat.float :=
  S754_finite false 5404319552844595 (-52).

(** PIL images as the application builds them: the decoded upload, a
    resized image, a region cropped out of an image.  What an image shows is
    fixed by how it was made. *)
Inductive Picture : Type :=
| Opened (file : bytes) (size : Image)
| Resized (source : Picture) (new_width new_height : Z)
| Cropped (source : Picture) (box : Stripe).

(** [image.size]. *)
Definition picture_size (image : Picture) : Z * Z :=
  match image with
  | Opened _ size => (width size, height size)
  | Resized _ w h => (w, h)
  | Cropped _ box => (right box - left box, lower box - upper box)
  end.

Definition image_of (image : Picture) : Image :=
  {| width := fst (picture_size image); height := snd (picture_size image) |}.

(** [image.resize((w, h))]: PIL wants both sides positive. *)
Definition resize (image : Picture) (size : Z * Z) : result Picture :=
  let '(w, h) := size in
  if (w <? 1) || (h <? 1) then Raise ValueError
  else Ok (Resized image w h).

(** [ocr_processor.split_image_into_horizontal_stripes(image)] on a picture:
    the stripes are the regions of [image] at the boxes the splitter
    crops. *)
Definition split_picture (image : Picture) (stripe_count : Z)
    (overlap : PyFloat.float) : result (list Picture) :=
  stripes <- split_image_into_horizontal_stripes (image_of image)
               stripe_count overlap ;;
  Ok (Cropped image <$> stripes).

(** A number handed to Streamlit. *)
Inductive number : Type :=
| py_int (z : Z)
| py_float (x : PyFloat.float).

(** What the script asks of Streamlit and of the clock, in order. *)
Inductive ui_event : Type :=
| st_title (body : str)
| st_markdown (sidebar : bool) (body : str) (unsafe_allow_html : bool)
| st_file_uploader (label : str) (types : list str)
| st_image (image : Picture) (caption : str) (use_container_width : bool)
| st_progress (value : number)
| st_empty
| status_markdown (body : str)
| sleep (seconds : PyFloat.float)
| st_download_button (label : str) (data : bytes) (file_name mime : str).

(** The state of a run of the script: the remote calls issued and the
    events shown so far. *)
Record world : Type := { sent : list request; screen : list ui_event }.

Definition ui (A : Type) : Type := world -> result A * world.

Definition ui_ret {A : Type} (a : A) : ui A := fun w => (Ok a, w).

Definition ui_bind {A B : Type} (m : ui A) (k : A -> ui B) : ui B :=
  fun w =>
    match m w with
    | (Ok a, w') => k a w'
    | (Raise e, w') => (Raise e, w')
    end.

Notation "x <~~ m ;; k" := (ui_bind m (fun x => k))
  (at level 100, m at next level, right associativity).

Definition ui_result {A : Type} (r : result A) : ui A := fun w => (r, w).

(** A method of the processor, run inside the script. *)
Definition ui_io {A : Type} (m : io A) : ui A :=
  fun w =>
    let '(r, log) := m (sent w) in
    (r, {| sent := log; screen := screen w |}).

Definition show (e : ui_event) : ui unit :=
  fun w => (Ok tt, {| sent := sent w; screen := screen w ++ [e] |}).

(** [enumerate(xs, start)]. *)
Fixpoint enumerate {A : Type} (xs : list A) (start : Z) : list (Z * A) :=
  match xs with
  | [] => []
  | x :: rest => (start, x) :: enumerate rest (start + 1)
  end.

(** [range(a, b)]. *)
Definition range_from (a b : Z) : list Z :=
  (fun k => a + Z.of_nat k) <$> seq 0 (Z.to_nat (b - a)).

(** The f-string of the status box. *)
Definition status_text (i run percent : Z) : str :=
  utf8 "**Processando Stripe " ++ str_of_int i ++ utf8 ", Run "
  ++ str_of_int run ++ utf8 " (" ++ str_of_int percent
  ++ utf8 "%) . . . **".

(** The models the script names in its two calls. *)
Definition script_ocr_model : str := utf8 "llama-3.2-90b-vision-preview".
Definition script_table_model : str := utf8 "llama-3.3-70b-versatile".

Section Application.

Variable pil_open : bytes -> result Image.
Variable pil_convert : Picture -> str -> result Picture.
Variable pil_save : Picture -> str -> Z -> result bytes.
Variable chat_groq_init : ChatGroq -> result unit.
Variable remote : list request -> request -> result str.

(** [ocr_processor = OCRProcessor()], made when the script starts. *)
Variable ocr_processor : OCRProcessor.

(** The body of the inner loop, and the loop over
    [enumerate(stripes, start=1)]; [step] and [markdown_runs] are carried
    along. *)
Fixpoint for_stripes (run total_steps : Z) (items : list (Z * Picture))
    (step : Z) (markdown_runs : list str) : ui (Z * list str) :=
  match items with
  | [] => ui_ret (step, markdown_runs)
  | (i, stripe) :: rest =>
      let step := step + 1 in
      progress <~~ ui_result (true_div step total_steps) ;;
      _ <~~ show (st_progress (py_float progress)) ;;
      percent <~~ ui_result (p <- float_mul_int progress 100 ;;
                              PyFloat.to_int p) ;;
      _ <~~ show (status_markdown (status_text i run percent)) ;;
      _ <~~ show (sleep PyFloat.lit_0_1) ;;
      stripe_markdown <~~
        ui_io (ocr pil_convert pil_save chat_groq_init remote ocr_processor
                  stripe script_ocr_model) ;;
      for_stripes run total_steps rest step (markdown_runs ++ [stripe_markdown])
  end.

(** The loop over [range(1, n + 1)]. *)
Fixpoint for_runs (runs : list Z) (total_steps : Z) (stripes : list Picture)
    (step : Z) (markdown_runs : list str) : ui (Z * list str) :=
  match runs with
  | [] => ui_ret (step, markdown_runs)
  | run :: rest =>
      state <~~ for_stripes run total_steps (enumerate stripes 1) step
                  markdown_runs ;;
      for_runs rest total_steps stripes (fst state) (snd state)
  end.

(** The sidebar: the uploader and, for an uploaded file, the enlarged image
    and its stripes. *)
Definition sidebar (uploaded_file : option bytes)
  : ui (option (list Picture)) :=
  _ <~~ show (st_markdown true (utf8 "#### Upload da Imagem") false) ;;
  _ <~~ show (st_file_uploader (utf8 "Carregue uma imagem 🖼️")
                [utf8 "jpg"; utf8 "jpeg"; utf8 "png"]) ;;
  match uploaded_file with
  | None => ui_ret None
  | Some file =>
      size <~~ ui_result (pil_open file) ;;
      let image := Opened file size in
      let '(width, height) := picture_size image in
      new_width <~~ ui_result (overlap_height_of width lit_1_2) ;;
      new_height <~~ ui_result (overlap_height_of height lit_1_2) ;;
      image <~~ ui_result (resize image (new_width, new_height)) ;;
      _ <~~ show (st_image image (utf8 "Uploaded Image") true) ;;
      stripes <~~ ui_result (split_picture image default_stripe_count
                                default_overlap) ;;
      ui_ret (Some stripes)
  end.

(** The main area for an uploaded file: OCR of every stripe, then the
    consolidation, the table and the download button. *)
Definition results (stripes : list Picture) : ui unit :=
  _ <~~ show (st_markdown false (utf8 "#### OCR e Resultados") false) ;;
  _ <~~ show (st_progress (py_int 0)) ;;
  let n := 1 in
  let markdown_runs := [] in
  let total_steps := Z.of_nat (length stripes) * n in
  let step := 0 in
  _ <~~ show st_empty ;;
  state <~~ for_runs (range_from 1 (n + 1)) total_steps stripes step
              markdown_runs ;;
  let markdown_runs := snd state in
  _ <~~ show (st_progress (py_float PyFloat.one)) ;;
  _ <~~ show (status_markdown (utf8 "**Processamento completo.**")) ;;
  table_output <~~
    ui_io (format_to_table chat_groq_init remote ocr_processor markdown_runs
              script_table_model) ;;
  _ <~~ show (st_markdown false table_output true) ;;
  data <~~ ui_result (encode_utf8 table_output) ;;
  show (st_download_button (utf8 "Download Tabela") data
          (utf8 "tabela_consolidada.txt") (utf8 "text/plain")).

(** One run of the script, for what the uploader holds. *)
Definition script (uploaded_file : option bytes) : ui unit :=
  _ <~~ show (st_title (utf8 "OCR para Tabela com o Modelo Llama3.2 Vision")) ;;
  _ <~~ show (st_markdown false
                (utf8 "Converta o conteúdo de uma imagem carregada em um formato de Tabela Estruturada.")
                false) ;;
  stripes <~~ sidebar uploaded_file ;;
  match stripes with
  | Some stripes => results stripes
  | None =>
      show (st_markdown false
              (utf8 "O resultado será exibido aqui após carregar uma imagem.")
              false)
  end.

End Application.

(** A decoder for the examples: every upload is a 500 by 1000 image. *)
Definition sample_open (file : bytes) : result Image :=
  Ok {| width := 500; height := 1000 |}.

Definition picture_convert (image : Picture) (mode : str) : result Picture :=
  Ok image.

(** A codec for the examples: the "JPEG" of a picture is its size. *)
Definition picture_save (image : Picture) (format : str) (quality : Z)
  : result bytes :=
  Ok [Z.to_N (fst (picture_size image)) mod 256;
      Z.to_N (snd (picture_size image)) mod 256]%N.

Definition sample_file : bytes := [1; 2; 3]%N.

(** A run that starts with nothing sent and nothing shown. *)
Definition fresh_world : world := {| sent := []; screen := [] |}.

(** A remote model for the examples that fails on its third call. *)
Definition refuse_third (log : list request) (r : request) : result str :=
  if (length log =? 2)%nat then Raise GroqError else Ok sample_answer.

(** ** What the script sends and shows *)

(** The text [encode_image_pil] returns for a picture, by the codec. *)
Definition encoding_of {picture : Type}
    (pil_convert : picture -> str -> result picture)
    (pil_save : picture -> str -> Z -> result bytes) (image : picture)
  : result str :=
  rgb <- pil_convert image (utf8 "RGB") ;;
  data <- pil_save rgb (utf8 "JPEG") 90 ;;
  Ok (b64encode data).

(** The trimmed answers of the remote model to a sequence of requests sent
    one after the other, starting from the log [log]. *)
Fixpoint replies (remote : list request -> request -> result str)
    (log : list request) (reqs : list request) : result (list str) :=
  match reqs with
  | [] => Ok []
  | r :: rest =>
      answer <- remote log r ;;
      others <- replies remote (log ++ [r]) rest ;;
      Ok (strip answer :: others)
  end.

(** What one pass of the inner loop shows. *)
Definition stripe_events (i : Z) (progress : PyFloat.float) (percent : Z)
  : list ui_event :=
  [ st_progress (py_float progress);
    status_markdown (status_text i 1 percent);
    sleep PyFloat.lit_0_1 ].

(** What the script shows before the loop, for the enlarged image. *)
Definition opening_events (image : Picture) : list ui_event :=
  [ st_title (utf8 "OCR para Tabela com o Modelo Llama3.2 Vision");
    st_markdown false
      (utf8 "Converta o conteúdo de uma imagem carregada em um formato de Tabela Estruturada.")
      false;
    st_markdown true (utf8 "#### Upload da Imagem") false;
    st_file_uploader (utf8 "Carregue uma imagem 🖼️")
      [utf8 "jpg"; utf8 "jpeg"; utf8 "png"];
    st_image image (utf8 "Uploaded Image") true;
    st_markdown false (utf8 "#### OCR e Resultados") false;
    st_progress (py_int 0);
    st_empty ].

(** What the loop shows for five stripes: a fifth more progress each
    time. *)
Definition five_stripes_events : list ui_event :=
  stripe_events 1 (S754_finite false 7205759403792794 (-55)) 20
  ++ stripe_events 2 (S754_finite false 7205759403792794 (-54)) 40
  ++ stripe_events 3 (S754_finite false 5404319552844595 (-53)) 60
  ++ stripe_events 4 (S754_finite false 7205759403792794 (-53)) 80
  ++ stripe_events 5 PyFloat.one 100.

(** What the script shows after the loop, for the table and its bytes. *)
Definition closing_events (table_output : str) (data : bytes)
  : list ui_event :=
  [ st_progress (py_float PyFloat.one);
    status_markdown (utf8 "**Processamento completo.**");
    st_markdown false table_output true;
    st_download_button (utf8 "Download Tabela") data
      (utf8 "tabela_consolidada.txt") (utf8 "text/plain") ].

(** A step of the script that issues no remote call. *)
Definition keeps_sent {A : Type} (m : ui A) : Prop :=
  forall w : world, sent (snd (m w)) = sent w.

(** ** The base64 alphabet *)

(** The characters of base64 text: letters, digits, [+], [/] and the
    padding [=]. *)
Definition is_base64_char (c : N) : bool :=
  ((65 <=? c) && (c <=? 90) || (97 <=? c) && (c <=? 122)
   || (48 <=? c) && (c <=? 57) || (c =? 43) || (c =? 47) || (c =? 61))%N.

(** The value a base64 character stands for; used to read an encoding
    back. *)
Definition b64_value (c : N) : N :=
  (if (65 <=? c) && (c <=? 90) then c - 65
   else if (97 <=? c) && (c <=? 122) then c - 71
   else if (48 <=? c) && (c <=? 57) then c + 4
   else if c =? 43 then 62
   else 63)%N.

(** Reading base64 text back, four characters at a time. *)
Fixpoint b64_read (cs : bytes) : bytes :=
  match cs with
  | c1 :: c2 :: c3 :: c4 :: rest =>
      let v1 := b64_value c1 in
      let v2 := b64_value c2 in
      let v3 := b64_value c3 in
      let v4 := b64_value c4 in
      (if c3 =? 61 then [v1 * 4 + v2 / 16]
       else if c4 =? 61 then [v1 * 4 + v2 / 16; (v2 mod 16) * 16 + v3 / 4]
       else [v1 * 4 + v2 / 16; (v2 mod 16) * 16 + v3 / 4;
             (v3 mod 4) * 64 + v4] ++ b64_read rest)%N
  | _ => []
  end.

(** ** Proof helpers *)

(** Whether a shifted mantissa has lost a non-zero bit. *)
Definition inexact (mrs : shr_record) : bool := shr_r mrs || shr_s mrs.

(** [SpecFloat] is stated with the core library's integer operations; the
    proofs below read them as the [Z] operations they are. *)
Ltac std_Z :=
  change IntDef.Z.add with Z.add in *;
  change IntDef.Z.sub with Z.sub in *;
  change IntDef.Z.mul with Z.mul in *;
  change IntDef.Z.opp with Z.opp in *;
  change IntDef.Z.max with Z.max in *;
  change IntDef.Z.min with Z.min in *;
  change IntDef.Z.leb with Z.leb in *;
  change IntDef.Z.eqb with Z.eqb in *;
  change IntDef.Z.even with Z.even in *;
  change IntDef.Z.compare with Z.compare in *.


(** Arithmetic with quotients and remainders by constants. *)
Ltac euclid_lia := zify; Z.to_euclidean_division_equations; lia.

(** * Facts about binary64 rounding *)

Lemma digits2_pos_size (p : positive) : digits2_pos p = Pos.size p.
Proof. induction p; simpl; congruence. Qed.

Lemma Zdigits2_le (m k : Z) : 0 <= k -> 0 <= m < 2 ^ k -> Zdigits2 m <= k.
Proof.
  intros Hk [Hm Hlt]. destruct m as [|p|p]; simpl; try lia.
  rewrite digits2_pos_size.
  assert (Z.log2 (Zpos p) < k) by (apply Z.log2_lt_pow2; lia).
  destruct p; simpl in *; lia.
Qed.


Lemma shr_1_eq (m : Z) (r s : bool) :
  0 <= m ->
  shr_1 (Build_shr_record m r s) = Build_shr_record (Z.div2 m) (Z.odd m) (r || s).
Proof. intros Hm. destruct m as [|[p|p|]|p]; try reflexivity; lia. Qed.

(** One right shift keeps the quotient and records what was dropped. *)
Lemma shr_1_spec (mrs : shr_record) :
  0 <= shr_m mrs ->
  shr_m (shr_1 mrs) = shr_m mrs / 2 /\
  (inexact (shr_1 mrs) = true -> inexact mrs = true \/ shr_m mrs mod 2 <> 0).
Proof.
  destruct mrs as [m r s]. cbn [shr_m]. intros Hm.
  rewrite shr_1_eq by assumption. unfold inexact. cbn [shr_m shr_r shr_s].
  split; [apply Z.div2_div|].
  intros H. apply orb_true_iff in H. destruct H as [H|H]; [right|left; exact H].
  rewrite Zmod_odd, H. discriminate.
Qed.

Lemma mod_pow2_split (m a b : Z) :
  0 <= a -> 0 <= b ->
  m mod 2 ^ (a + b) = 0 -> m mod 2 ^ a = 0 /\ (m / 2 ^ a) mod 2 ^ b = 0.
Proof.
  intros Ha Hb H.
  assert (0 < 2 ^ a) by (apply Z.pow_pos_nonneg; lia).
  assert (0 < 2 ^ b) by (apply Z.pow_pos_nonneg; lia).
  rewrite Z.pow_add_r in H by assumption.
  rewrite Z.rem_mul_r in H by lia.
  pose proof (Z.mod_pos_bound m (2 ^ a) ltac:(lia)).
  pose proof (Z.mod_pos_bound (m / 2 ^ a) (2 ^ b) ltac:(lia)).
  nia.
Qed.

Lemma iter_shr_1_spec (p : positive) : forall mrs : shr_record,
  0 <= shr_m mrs ->
  shr_m (SpecFloat.iter_pos shr_1 p mrs) = shr_m mrs / 2 ^ Zpos p /\
  (inexact (SpecFloat.iter_pos shr_1 p mrs) = true ->
   inexact mrs = true \/ shr_m mrs mod 2 ^ Zpos p <> 0).
Proof.
  assert (Hstep : forall (q : Z) (f g : shr_record -> shr_record) (a b : Z),
    0 <= a -> 0 <= b ->
    (forall mrs, 0 <= shr_m mrs ->
       shr_m (f mrs) = shr_m mrs / 2 ^ a /\
       (inexact (f mrs) = true -> inexact mrs = true \/ shr_m mrs mod 2 ^ a <> 0)) ->
    (forall mrs, 0 <= shr_m mrs ->
       shr_m (g mrs) = shr_m mrs / 2 ^ b /\
       (inexact (g mrs) = true -> inexact mrs = true \/ shr_m mrs mod 2 ^ b <> 0)) ->
    forall mrs, 0 <= shr_m mrs ->
       shr_m (g (f mrs)) = shr_m mrs / 2 ^ (a + b) /\
       (inexact (g (f mrs)) = true ->
        inexact mrs = true \/ shr_m mrs mod 2 ^ (a + b) <> 0)).
  { intros _ f g a b Ha Hb Hf Hg mrs Hm.
    destruct (Hf mrs Hm) as [Hf1 Hf2].
    assert (0 < 2 ^ a) by (apply Z.pow_pos_nonneg; lia).
    assert (Hm' : 0 <= shr_m (f mrs)) by (rewrite Hf1; apply Z.div_pos; lia).
    destruct (Hg (f mrs) Hm') as [Hg1 Hg2].
    split.
    - rewrite Hg1, Hf1, Z.pow_add_r, Z.div_div by lia. reflexivity.
    - intros Hi. destruct (Hg2 Hi) as [Hi'|Hi'].
      + destruct (Hf2 Hi') as [?|Hne]; [left; assumption|right].
        intros H0. apply mod_pow2_split in H0; tauto.
      + right. intros H0. apply mod_pow2_split in H0; try lia.
        rewrite Hf1 in Hi'. tauto. }
  induction p as [p IH|p IH|]; intros mrs Hm; cbn [SpecFloat.iter_pos].
  - replace (Zpos p~1) with (1 + (Zpos p + Zpos p)) by lia.
    apply (Hstep 0 shr_1 (fun x => SpecFloat.iter_pos shr_1 p (SpecFloat.iter_pos shr_1 p x))); try lia.
    + intros x Hx. rewrite Z.pow_1_r. apply shr_1_spec; assumption.
    + apply (Hstep 0 (SpecFloat.iter_pos shr_1 p) (SpecFloat.iter_pos shr_1 p)); try lia; assumption.
  - replace (Zpos p~0) with (Zpos p + Zpos p) by lia.
    apply (Hstep 0 (SpecFloat.iter_pos shr_1 p) (SpecFloat.iter_pos shr_1 p)); try lia; assumption.
  - rewrite Z.pow_1_r. apply shr_1_spec; assumption.
Qed.


Lemma round_nearest_even_range (m : Z) (l : location) :
  m <= round_nearest_even m l <= m + 1.
Proof.
  destruct l as [|[| |]]; simpl; try lia. destruct (Z.even m); lia.
Qed.

Lemma loc_of_shr_record_exact (mrs : shr_record) :
  inexact mrs = false -> loc_of_shr_record mrs = loc_Exact.
Proof. destruct mrs as [m [|] [|]]; simpl; intros H; try discriminate; reflexivity. Qed.

(** One alignment step of the rounding: the exponent grows, stays
    non-positive, and the rounded mantissa stays below every integer bound
    [h] the exact value was below. *)
Lemma shr_fexp_bound (m e h : Z) :
  0 <= m -> 0 <= h < 2 ^ 53 -> e <= 0 -> m <= h * 2 ^ (- e) ->
  exists mrs e',
    shr_fexp PyFloat.prec PyFloat.emax m e loc_Exact = (mrs, e') /\
    e <= e' <= 0 /\ 0 <= shr_m mrs /\
    shr_m mrs <= round_nearest_even (shr_m mrs) (loc_of_shr_record mrs) /\
    round_nearest_even (shr_m mrs) (loc_of_shr_record mrs) <= h * 2 ^ (- e').
Proof.
  intros Hm Hh He Hle.
  unfold shr_fexp, shr, shr_record_of_loc.
  assert (Hpe : 0 < 2 ^ (- e)) by (apply Z.pow_pos_nonneg; lia).
  assert (Hd : Zdigits2 m <= 53 - e).
  { apply Zdigits2_le; [lia|]. split; [assumption|].
    replace (53 - e) with (53 + - e) by lia.
    rewrite Z.pow_add_r by lia. nia. }
  std_Z.
  destruct (fexp PyFloat.prec PyFloat.emax (Zdigits2 m + e) - e) as [|p|p] eqn:Hn.
  1,3: eexists; eexists; split; [reflexivity|]; cbn [shr_m loc_of_shr_record round_nearest_even]; lia.
  eexists; eexists; split; [reflexivity|]. std_Z.
  set (mrs0 := {| shr_m := m; shr_r := false; shr_s := false |}).
  destruct (iter_shr_1_spec p mrs0 Hm) as [Hq Hi].
  cbn [shr_m] in Hq, Hi.
  assert (He' : e + Zpos p <= 0).
  { unfold fexp, SpecFloat.emin, PyFloat.prec, PyFloat.emax in Hn. std_Z. lia. }
  assert (Hpp : 0 < 2 ^ Zpos p) by (apply Z.pow_pos_nonneg; lia).
  assert (Hsplit : 2 ^ (- e) = 2 ^ (- (e + Zpos p)) * 2 ^ Zpos p).
  { rewrite <- Z.pow_add_r by lia. f_equal. lia. }
  assert (0 < 2 ^ (- (e + Zpos p))) by (apply Z.pow_pos_nonneg; lia).
  pose proof (Z.div_mod m (2 ^ Zpos p) ltac:(lia)) as Hdm.
  pose proof (Z.mod_pos_bound m (2 ^ Zpos p) Hpp) as Hmb.
  pose proof (round_nearest_even_range (shr_m (SpecFloat.iter_pos shr_1 p mrs0))
                (loc_of_shr_record (SpecFloat.iter_pos shr_1 p mrs0))) as Hr.
  split; [lia|]. split; [rewrite Hq; apply Z.div_pos; [exact Hm|lia]|]. split; [lia|].
  destruct (inexact (SpecFloat.iter_pos shr_1 p mrs0)) eqn:Hx.
  - destruct (Hi eq_refl) as [Hf|Hne]; [discriminate|].
    rewrite Hq in *. cbn [shr_m mrs0] in *. nia.
  - rewrite (loc_of_shr_record_exact _ Hx). cbn [round_nearest_even].
    rewrite Hq. cbn [shr_m mrs0]. nia.
Qed.

(** Rounding an exact value that lies below the integer [h] yields zero or a
    finite float that still lies below [h]: no overflow, no NaN. *)
Lemma binary_round_aux_upper (s : bool) (mx : positive) (ex h : Z) :
  0 <= h < 2 ^ 53 -> ex <= 0 -> Zpos mx <= h * 2 ^ (- ex) ->
  binary_round_aux PyFloat.prec PyFloat.emax s (Zpos mx) ex loc_Exact = S754_zero s \/
  exists m e,
    binary_round_aux PyFloat.prec PyFloat.emax s (Zpos mx) ex loc_Exact = S754_finite s m e /\
    e <= 0 /\ Zpos m <= h * 2 ^ (- e).
Proof.
  intros Hh Hex Hle. unfold binary_round_aux.
  destruct (shr_fexp_bound (Zpos mx) ex h) as (mrs1 & e1 & E1 & He1 & Hm1 & Hr1 & Hb1);
    try lia.
  rewrite E1.
  destruct (shr_fexp_bound
              (round_nearest_even (shr_m mrs1) (loc_of_shr_record mrs1)) e1 h)
    as (mrs2 & e2 & E2 & He2 & Hm2 & Hr2 & Hb2); try lia.
  rewrite E2.
  destruct (shr_m mrs2) as [|m|m] eqn:Em; [left; reflexivity| |lia].
  right. exists m, e2. std_Z.
  replace (e2 <=? PyFloat.emax - PyFloat.prec) with true
    by (symmetry; apply Z.leb_le; unfold PyFloat.emax, PyFloat.prec; lia).
  repeat split; lia.
Qed.

Lemma iter_xO_pow2 (p d : positive) :
  Zpos (Pos.iter xO p d) = Zpos p * 2 ^ Zpos d.
Proof.
  induction d as [|d IH] using Pos.peano_ind.
  - simpl. lia.
  - rewrite Pos.iter_succ, Pos2Z.inj_xO, IH, Pos2Z.inj_succ, Z.pow_succ_r by lia. lia.
Qed.

Lemma pos_lt_pow2_digits (p : positive) : Zpos p < 2 ^ Zpos (digits2_pos p).
Proof.
  rewrite digits2_pos_size.
  pose proof (Pos.size_gt p) as H.
  apply Pos2Z.pos_lt_pos in H. rewrite Pos2Z.inj_pow in H. exact H.
Qed.

Lemma binary_normalize_upper (n : Z) :
  0 <= n < 2 ^ 53 ->
  binary_normalize PyFloat.prec PyFloat.emax n 0 false = S754_zero false \/
  exists m e,
    binary_normalize PyFloat.prec PyFloat.emax n 0 false = S754_finite false m e /\
    e <= 0 /\ Zpos m <= n * 2 ^ (- e).
Proof.
  intros Hn. destruct n as [|p|p]; [left; reflexivity| |lia].
  cbn [binary_normalize]. unfold binary_round, shl_align. std_Z.
  destruct (fexp PyFloat.prec PyFloat.emax (Zpos (digits2_pos p) + 0) - 0) as [|d|d] eqn:Hd.
  1,2: apply binary_round_aux_upper; lia.
  apply binary_round_aux_upper; try lia.
  change (@PosDef.Pos.iter) with (@Pos.iter). rewrite iter_xO_pow2.
  replace (fexp PyFloat.prec PyFloat.emax (Zpos (digits2_pos p) + 0)) with (Zneg d) by lia.
  change (- Zneg d) with (Zpos d). lia.
Qed.

(** * Facts about [PyFloat] *)

Lemma compare_cont_core (m n : positive) :
  PosDef.Pos.compare_cont Eq m n = Pos.compare m n.
Proof. reflexivity. Qed.

(** A valid float in [[0, 1]] is a zero or a positive finite float whose
    value is at most one. *)
Lemma unit_interval_cases (f : PyFloat.float) :
  PyFloat.valid f = true -> PyFloat.in_unit_interval f = true ->
  (exists s, f = S754_zero s) \/
  (exists m e, f = S754_finite false m e /\ e <= 0 /\ Zpos m <= 2 ^ (- e)).
Proof.
  intros Hv Hu. unfold PyFloat.in_unit_interval in Hu.
  apply andb_true_iff in Hu. destruct Hu as [H0 H1].
  destruct f as [s|s| |s m e]; [left; exists s; reflexivity| | |].
  - destruct s; discriminate.
  - discriminate.
  - destruct s; [discriminate|]. right. exists m, e. split; [reflexivity|].
    unfold PyFloat.leb, SFleb, SFcompare, PyFloat.one in H1.
    unfold PyFloat.valid, valid_binary, bounded, canonical_mantissa in Hv.
    apply andb_true_iff in Hv. destruct Hv as [Hc _].
    unfold fexp, SpecFloat.emin, PyFloat.prec, PyFloat.emax in Hc. std_Z.
    apply Z.eqb_eq in Hc.
    pose proof (pos_lt_pow2_digits m) as Hlt.
    assert (Hd : Zpos (digits2_pos m) <= 53) by lia.
    assert (Hm53 : Zpos m < 2 ^ 53).
    { pose proof (Z.pow_le_mono_r 2 (Zpos (digits2_pos m)) 53 ltac:(lia) Hd).
      lia. }
    destruct (e ?= -52) eqn:Hcmp.
    + apply Z.compare_eq in Hcmp. subst e. split; [lia|].
      change (- -52) with 52.
      change (2 ^ 52) with 4503599627370496.
      rewrite compare_cont_core in H1.
      destruct (Pos.compare_spec m 4503599627370496) as [E|L|G].
      * rewrite E. apply Z.le_refl.
      * apply Z.lt_le_incl. exact L.
      * discriminate H1.
    + change (e < -52) in Hcmp. split; [lia|].
      pose proof (Z.pow_le_mono_r 2 53 (- e) ltac:(lia) ltac:(lia)). lia.
    + discriminate.
Qed.

(** A positive finite float below the integer [h] truncates to an integer in
    [[0, h]], and truncation is then the floor. *)
Lemma to_int_below (m : positive) (e h : Z) :
  e <= 0 -> Zpos m <= h * 2 ^ (- e) ->
  exists k, PyFloat.to_int (S754_finite false m e) = Ok k /\
            PyFloat.floor (S754_finite false m e) = Some k /\ 0 <= k <= h.
Proof.
  intros He Hm. exists (Z.shiftl (Zpos m) e).
  split; [reflexivity|]. split; [reflexivity|].
  rewrite Z.shiftl_div_pow2 by assumption.
  assert (0 < 2 ^ (- e)) by (apply Z.pow_pos_nonneg; lia).
  split; [apply Z.div_pos; lia|].
  apply Z.div_le_upper_bound; lia.
Qed.

(** [int(h * f)] for an integer [0 <= h < 2^53] and a float [f] in [[0, 1]]
    never raises, is the floor of the binary64 product, and lies in
    [[0, h]]. *)
Lemma int_mul_unit_interval (h : Z) (f : PyFloat.float) :
  0 <= h < 2 ^ 53 ->
  PyFloat.valid f = true -> PyFloat.in_unit_interval f = true ->
  exists p k, PyFloat.int_mul h f = Ok p /\ PyFloat.to_int p = Ok k /\
              PyFloat.floor p = Some k /\ 0 <= k <= h.
Proof.
  intros Hh Hv Hu. unfold PyFloat.int_mul, PyFloat.of_int.
  destruct (binary_normalize_upper h Hh) as [E|(m & e & E & He & Hm)];
    rewrite E; cbn [bind];
    destruct (unit_interval_cases f Hv Hu) as [[s ->]|(mf & ef & -> & Hef & Hmf)].
  - eexists; exists 0. repeat split; lia.
  - eexists; exists 0. repeat split; lia.
  - eexists; exists 0. repeat split; lia.
  - unfold PyFloat.mul, SFmul. cbn [xorb].
    assert (Hprod : Zpos (m * mf) <= h * 2 ^ (- (e + ef))).
    { replace (- (e + ef)) with (- e + - ef) by lia.
      rewrite Z.pow_add_r, Pos2Z.inj_mul by lia.
      assert (0 < 2 ^ (- e)) by (apply Z.pow_pos_nonneg; lia).
      assert (0 < 2 ^ (- ef)) by (apply Z.pow_pos_nonneg; lia).
      nia. }
    std_Z. change (PosDef.Pos.mul m mf) with (Pos.mul m mf).
    destruct (binary_round_aux_upper false (m * mf) (e + ef) h Hh ltac:(lia) Hprod)
      as [Ez|(m' & e' & Ef & He' & Hm')].
    + rewrite Ez. eexists; exists 0. repeat split; lia.
    + rewrite Ef. destruct (to_int_below m' e' h He' Hm') as (k & ? & ? & ?).
      eexists; exists k. repeat split; try eassumption; lia.
Qed.

(** The product is rounded to a double before [int] truncates it:
    [int(10 * 0.7)] is 7, although the double read from [0.7] lies below
    seven tenths. *)
Example int_mul_rounds_before_truncating :
  overlap_height_of 10 PyFloat.lit_0_7 = Ok 7 /\
  overlap_height_of 200 PyFloat.lit_0_1 = Ok 20 /\
  overlap_height_of 200 PyFloat.lit_neg_0_1 = Ok (-20).
Proof. repeat split; vm_compute; reflexivity. Qed.

(** * The stripe splitter *)

Lemma for_append_fmap {A B : Type} (body : A -> result B) (g : A -> B)
    (xs : list A) : forall acc : list B,
  Forall (fun x => body x = Ok (g x)) xs ->
  for_append body xs acc = Ok (acc ++ (g <$> xs)).
Proof.
  induction xs as [|x xs IH]; intros acc Hall; cbn [for_append].
  - rewrite app_nil_r. reflexivity.
  - inversion Hall as [|? ? Hx Hxs]; subst. rewrite Hx. cbn [bind].
    rewrite IH by assumption. rewrite <- app_assoc. reflexivity.
Qed.

Lemma length_range (n : Z) : length (range n) = Z.to_nat n.
Proof. unfold range. rewrite length_fmap, length_seq. reflexivity. Qed.

Lemma lookup_range (n : Z) (i : nat) :
  (i < Z.to_nat n)%nat -> range n !! i = Some (Z.of_nat i).
Proof.
  intros Hi. unfold range. rewrite list_lookup_fmap, lookup_seq_lt by assumption.
  reflexivity.
Qed.

Lemma Forall_range (n : Z) (P : Z -> Prop) :
  (forall i, 0 <= i < n -> P i) -> Forall P (range n).
Proof.
  intros HP. unfold range. apply Forall_fmap, Forall_forall.
  intros k Hk. apply elem_of_seq in Hk. cbn. apply HP. lia.
Qed.

(** The loop body succeeds with the specified bounds as soon as the overlap
    height is not negative. *)
Lemma stripe_at_bounds (image : Image) (n oh i : Z) :
  image_ok image -> 1 <= n -> 0 <= oh -> 0 <= i < n ->
  stripe_at image (height image / n) oh i
  = Ok (stripe_bounds (width image) (height image) (height image / n) oh i).
Proof.
  intros [[Hw _] [Hh _]] Hn Hoh Hi.
  unfold stripe_at, size, crop, stripe_bounds.
  pose proof (Z.mul_div_le (height image) n ltac:(lia)) as Hmul.
  assert (0 <= height image / n) by (apply Z.div_pos; lia).
  destruct (Z.ltb_spec (width image) 0); [lia|].
  destruct (Z.ltb_spec
              (Z.min ((i + 1) * (height image / n) + oh) (height image))
              (Z.max (i * (height image / n) - oh) 0)) as [Hlt|]; [|reflexivity].
  exfalso. nia.
Qed.

(** On a proper image, with at least one stripe and an overlap fraction in
    [[0, 1]], the call returns: the stripes are the specified ones, with the
    overlap height the floor of the product and at most the base height. *)
Lemma split_unit_interval (image : Image) (n : Z) (f : PyFloat.float) :
  image_ok image -> 1 <= n ->
  PyFloat.valid f = true -> PyFloat.in_unit_interval f = true ->
  exists prod oh,
    PyFloat.int_mul (height image / n) f = Ok prod /\
    PyFloat.floor prod = Some oh /\
    0 <= oh <= height image / n /\
    split_image_into_horizontal_stripes image n f
    = Ok (stripe_bounds (width image) (height image) (height image / n) oh
            <$> range n).
Proof.
  intros Hok Hn Hv Hu.
  assert (Hbase : 0 <= height image / n < 2 ^ 53).
  { destruct Hok as [_ [H0 H31]].
    pose proof (Z.div_pos (height image) n ltac:(lia) ltac:(lia)).
    pose proof (Z.div_le_upper_bound (height image) n (height image)
                  ltac:(lia) ltac:(nia)).
    change (2 ^ 31) with 2147483648 in H31.
    change (2 ^ 53) with 9007199254740992. lia. }
  destruct (int_mul_unit_interval _ f Hbase Hv Hu) as (p & oh & Ep & Ei & Ef & Hoh).
  exists p, oh. repeat split; try assumption; try lia.
  unfold split_image_into_horizontal_stripes, floordiv, overlap_height_of.
  destruct (Z.eqb_spec n 0); [lia|]. cbn [bind].
  rewrite Ep. cbn [bind]. rewrite Ei. cbn [bind].
  rewrite (for_append_fmap _
             (stripe_bounds (width image) (height image) (height image / n) oh)).
  - reflexivity.
  - apply Forall_range. intros i Hi. apply stripe_at_bounds; try assumption; lia.
Qed.

(** C10: for every image, every stripe count [n >= 1] and every overlap
    fraction in [[0, 1]] the call does not raise, and every stripe it returns
    has [0 <= upper <= lower <= H], left bound 0 and right bound [W]; the
    upper bounds and the lower bounds are non-decreasing in the stripe
    index. *)
Theorem split_bounds_valid (image : Image) (n : Z) (f : PyFloat.float) :
  image_ok image -> 1 <= n ->
  PyFloat.valid f = true -> PyFloat.in_unit_interval f = true ->
  exists stripes,
    split_image_into_horizontal_stripes image n f = Ok stripes /\
    length stripes = Z.to_nat n /\
    (forall (i : nat) (s : Stripe), stripes !! i = Some s ->
       0 <= upper s <= lower s /\ lower s <= height image /\
       left s = 0 /\ right s = width image) /\
    (forall (i j : nat) (s t : Stripe),
       (i <= j)%nat -> stripes !! i = Some s -> stripes !! j = Some t ->
       upper s <= upper t /\ lower s <= lower t).
Proof.
  intros Hok Hn Hv Hu.
  destruct (split_unit_interval image n f Hok Hn Hv Hu)
    as (p & oh & _ & _ & Hoh & Es).
  eexists. split; [exact Es|].
  pose proof (Z.mul_div_le (height image) n ltac:(lia)) as Hmul.
  destruct Hok as [_ [Hh _]].
  assert (Hlook : forall (i : nat) (s : Stripe),
    (stripe_bounds (width image) (height image) (height image / n) oh
       <$> range n) !! i = Some s ->
    (i < Z.to_nat n)%nat /\
    s = stripe_bounds (width image) (height image) (height image / n) oh
          (Z.of_nat i)).
  { intros i s Hs. rewrite list_lookup_fmap in Hs.
    destruct (range n !! i) as [k|] eqn:Hk; [|discriminate].
    pose proof (lookup_lt_Some _ _ _ Hk) as Hlt. rewrite length_range in Hlt.
    rewrite lookup_range in Hk by assumption.
    split; [assumption|]. cbn in Hs. congruence. }
  split; [rewrite length_fmap; apply length_range|]. split.
  - intros i s Hs. apply Hlook in Hs. destruct Hs as [Hi ->].
    unfold stripe_bounds; cbn [upper lower left right].
    repeat split; try lia. nia.
  - intros i j s t Hij Hs Ht.
    apply Hlook in Hs. apply Hlook in Ht.
    destruct Hs as [_ ->]. destruct Ht as [_ ->].
    unfold stripe_bounds; cbn [upper lower]. split; nia.
Qed.

Lemma split_bounds_valid_witness :
  exists stripes,
    split_image_into_horizontal_stripes
      {| width := 640; height := 199 |} 5 PyFloat.lit_0_1 = Ok stripes /\
    length stripes = Z.to_nat 5 /\
    (forall (i : nat) (s : Stripe), stripes !! i = Some s ->
       0 <= upper s <= lower s /\ lower s <= 199 /\
       left s = 0 /\ right s = 640) /\
    (forall (i j : nat) (s t : Stripe),
       (i <= j)%nat -> stripes !! i = Some s -> stripes !! j = Some t ->
       upper s <= upper t /\ lower s <= lower t).
Proof.
  apply (split_bounds_valid {| width := 640; height := 199 |} 5 PyFloat.lit_0_1).
  - unfold image_ok; cbn; lia.
  - lia.
  - reflexivity.
  - reflexivity.
Defined.

(** C3, as stated, does not hold: on a 500 wide, 1000 high image with
    [n = 5] and [f = 0.1] the stripes 0, 2 and 4 do not span the rows
    [[0, 220)], [[180, 420)] and [[780, 1000)]. *)
Lemma default_split_stripe_2_not_180_420 :
  ~ exists stripes,
      split_image_into_horizontal_stripes
        {| width := 500; height := 1000 |} 5 PyFloat.lit_0_1 = Ok stripes /\
      rows <$> stripes !! 0%nat = Some (0, 220) /\
      rows <$> stripes !! 2%nat = Some (180, 420) /\
      rows <$> stripes !! 4%nat = Some (780, 1000).
Proof.
  intros (stripes & Es & _ & H2 & _).
  vm_compute in Es. injection Es as <-. vm_compute in H2. discriminate H2.
Qed.

(** C3, amended: on that image stripe 0 spans the rows [[0, 220)], stripe 1
    the rows [[180, 420)], stripe 2 the rows [[380, 620)] and stripe 4 the
    rows [[780, 1000)]. *)
Theorem default_split_rows :
  exists stripes,
    split_image_into_horizontal_stripes
      {| width := 500; height := 1000 |} 5 PyFloat.lit_0_1 = Ok stripes /\
    rows <$> stripes !! 0%nat = Some (0, 220) /\
    rows <$> stripes !! 1%nat = Some (180, 420) /\
    rows <$> stripes !! 2%nat = Some (380, 620) /\
    rows <$> stripes !! 4%nat = Some (780, 1000).
Proof. eexists. repeat split; vm_compute; reflexivity. Qed.




(** What the call does on the arguments its docstring says it rejects: a
    zero stripe count divides by zero, a negative one yields no stripe, and
    an overlap outside [[0, 1]] is used as it is. *)
Lemma split_zero_count_divides_by_zero (image : Image) (f : PyFloat.float) :
  split_image_into_horizontal_stripes image 0 f = Raise ZeroDivisionError.
Proof. reflexivity. Qed.

Lemma split_negative_count_no_stripe :
  split_image_into_horizontal_stripes
    {| width := 500; height := 1000 |} (-1) PyFloat.lit_0_1 = Ok [].
Proof. vm_compute. reflexivity. Qed.

Lemma split_overlap_above_one_returns :
  split_image_into_horizontal_stripes
    {| width := 500; height := 1000 |} 5 PyFloat.lit_1_1
  = Ok [ {| left := 0; upper := 0; right := 500; lower := 420 |};
         {| left := 0; upper := 0; right := 500; lower := 620 |};
         {| left := 0; upper := 180; right := 500; lower := 820 |};
         {| left := 0; upper := 380; right := 500; lower := 1000 |};
         {| left := 0; upper := 580; right := 500; lower := 1000 |} ].
Proof. vm_compute. reflexivity. Qed.

Lemma split_negative_overlap_returns :
  split_image_into_horizontal_stripes
    {| width := 500; height := 1000 |} 5 PyFloat.lit_neg_0_1
  = Ok [ {| left := 0; upper := 20; right := 500; lower := 180 |};
         {| left := 0; upper := 220; right := 500; lower := 380 |};
         {| left := 0; upper := 420; right := 500; lower := 580 |};
         {| left := 0; upper := 620; right := 500; lower := 780 |};
         {| left := 0; upper := 820; right := 500; lower := 980 |} ].
Proof. vm_compute. reflexivity. Qed.

(** C5, as stated, does not hold: an image of height zero (and one of width
    zero) is split without any error. *)
Lemma split_zero_dimension_returns :
  split_image_into_horizontal_stripes
    {| width := 500; height := 0 |} 5 PyFloat.lit_0_1
  = Ok (replicate 5 {| left := 0; upper := 0; right := 500; lower := 0 |}) /\
  is_ok (split_image_into_horizontal_stripes
           {| width := 0; height := 1000 |} 5 PyFloat.lit_0_1) = true.
Proof. split; vm_compute; reflexivity. Qed.

(** C5, amended: the call does not fail on an image whose width or height is
    zero; for every stripe count [n >= 1] and overlap fraction in [[0, 1]] it
    returns [n] stripes, each of them empty. *)
Theorem split_accepts_zero_dimension (image : Image) (n : Z)
    (f : PyFloat.float) :
  image_ok image -> width image = 0 \/ height image = 0 -> 1 <= n ->
  PyFloat.valid f = true -> PyFloat.in_unit_interval f = true ->
  exists stripes,
    split_image_into_horizontal_stripes image n f = Ok stripes /\
    length stripes = Z.to_nat n /\
    forall s : Stripe, s ∈ stripes ->
      (right s - left s) * (lower s - upper s) = 0.
Proof.
  intros Hok Hzero Hn Hv Hu.
  destruct (split_unit_interval image n f Hok Hn Hv Hu)
    as (p & oh & _ & _ & Hoh & Es).
  eexists. split; [exact Es|].
  split; [rewrite length_fmap; apply length_range|].
  intros s Hs. apply list_elem_of_fmap in Hs. destruct Hs as (i & -> & _).
  unfold stripe_bounds; cbn [left right upper lower].
  destruct Hzero as [-> | Hz]; [lia|].
  rewrite Hz in *. rewrite Z.div_0_l in Hoh by lia.
  assert (oh = 0) as -> by lia.
  rewrite Z.div_0_l, !Z.mul_0_r by lia. cbn. lia.
Qed.

Lemma split_accepts_zero_dimension_witness :
  exists stripes,
    split_image_into_horizontal_stripes
      {| width := 500; height := 0 |} 5 PyFloat.lit_0_1 = Ok stripes /\
    length stripes = Z.to_nat 5 /\
    forall s : Stripe, s ∈ stripes ->
      (right s - left s) * (lower s - upper s) = 0.
Proof.
  apply (split_accepts_zero_dimension
           {| width := 500; height := 0 |} 5 PyFloat.lit_0_1).
  - unfold image_ok; cbn; lia.
  - right; reflexivity.
  - lia.
  - reflexivity.
  - reflexivity.
Defined.

(** C2 on the code: with the default stripe count and overlap, an image 199
    rows high is cut into five stripes that end at row 198; the last row of
    the image lies in no stripe. *)
Theorem default_split_misses_last_row :
  exists stripes,
    split_image_into_horizontal_stripes
      {| width := 640; height := 199 |} default_stripe_count default_overlap
    = Ok stripes /\
    length stripes = 5%nat /\
    lower <$> last stripes = Some 198 /\
    covers stripes 198 = false.
Proof. eexists. repeat split; vm_compute; reflexivity. Qed.

(** The same without overlap: three stripes of a 1000 rows high image end at
    row 999. *)
Lemma split_three_misses_last_row :
  exists stripes,
    split_image_into_horizontal_stripes
      {| width := 500; height := 1000 |} 3 PyFloat.zero = Ok stripes /\
    lower <$> last stripes = Some 999 /\
    covers stripes 999 = false.
Proof. eexists. repeat split; vm_compute; reflexivity. Qed.

(** Where the stripes do cover the image: whenever the rows left over by the
    integer division, [H mod n], fit in the overlap height. *)
Lemma split_covers_when_remainder_fits (image : Image) (n : Z)
    (f : PyFloat.float) :
  image_ok image -> 1 <= n ->
  PyFloat.valid f = true -> PyFloat.in_unit_interval f = true ->
  exists product overlapHeight stripes,
    PyFloat.int_mul (height image / n) f = Ok product /\
    PyFloat.floor product = Some overlapHeight /\
    split_image_into_horizontal_stripes image n f = Ok stripes /\
    (height image mod n <= overlapHeight ->
     forall y, 0 <= y < height image -> covers stripes y = true).
Proof.
  intros Hok Hn Hv Hu.
  destruct (split_unit_interval image n f Hok Hn Hv Hu)
    as (p & oh & Ep & Ef & Hoh & Es).
  exists p, oh. eexists. split; [exact Ep|]. split; [exact Ef|].
  split; [exact Es|]. intros Hrem y Hy.
  set (b := height image / n) in *.
  pose proof (Z.div_mod (height image) n ltac:(lia)) as Hdm. fold b in Hdm.
  pose proof (Z.mod_pos_bound (height image) n ltac:(lia)) as Hmb.
  assert (Hb : 0 < b) by nia.
  set (i := Z.min (y / b) (n - 1)).
  pose proof (Z.div_mod y b ltac:(lia)) as Hyd.
  pose proof (Z.mod_pos_bound y b Hb) as Hym.
  assert (Hyb : 0 <= y / b) by (apply Z.div_pos; lia).
  assert (Hi : 0 <= i < n) by (unfold i; lia).
  unfold covers. apply existsb_exists.
  exists (stripe_bounds (width image) (height image) b oh i). split.
  - apply list_elem_of_In, list_elem_of_fmap. exists i. split; [reflexivity|].
    unfold range. apply list_elem_of_fmap. exists (Z.to_nat i).
    split; [lia|]. apply elem_of_seq. lia.
  - unfold has_row, stripe_bounds; cbn [upper lower].
    apply andb_true_iff. split; [apply Z.leb_le|apply Z.ltb_lt].
    + unfold i. nia.
    + unfold i. destruct (Z.min_spec (y / b) (n - 1)) as [[? ->]|[? ->]]; nia.
Qed.

(** * Strings *)

Lemma lstrip_decompose (s : str) :
  exists pre, s = pre ++ lstrip s /\ forallb isspace pre = true.
Proof.
  induction s as [|c s (pre & E & Hpre)]; [exists []; split; reflexivity|].
  cbn [lstrip]. destruct (isspace c) eqn:Hc.
  - exists (c :: pre). split; [cbn; congruence|]. cbn. rewrite Hc. exact Hpre.
  - exists []. split; reflexivity.
Qed.

Lemma lstrip_head (s : str) (c : N) :
  head (lstrip s) = Some c -> isspace c = false.
Proof.
  induction s as [|d s IH]; cbn [lstrip]; [discriminate|].
  destruct (isspace d) eqn:Hd; [exact IH|].
  cbn. intros [= <-]. exact Hd.
Qed.

Lemma rstrip_decompose (s : str) :
  exists post, s = rstrip s ++ post /\ forallb isspace post = true.
Proof.
  destruct (lstrip_decompose (rev s)) as (pre & E & Hpre).
  exists (rev pre). split.
  - unfold rstrip. rewrite <- rev_app_distr, <- E, rev_involutive. reflexivity.
  - rewrite forallb_forall in *. intros x Hx. apply Hpre, in_rev. exact Hx.
Qed.

Lemma rstrip_last (s : str) (c : N) :
  last (rstrip s) = Some c -> isspace c = false.
Proof.
  unfold rstrip. destruct (lstrip (rev s)) as [|d t] eqn:E.
  - discriminate.
  - cbn [rev]. rewrite last_snoc. intros [= <-].
    apply (lstrip_head (rev s)). rewrite E. reflexivity.
Qed.

(** [strip] removes a run of whitespace at each end and nothing else, and
    what it returns neither starts nor ends with whitespace. *)
Lemma strip_spec (s : str) :
  (exists pre post,
     s = pre ++ strip s ++ post /\
     forallb isspace pre = true /\ forallb isspace post = true) /\
  (forall c, head (strip s) = Some c -> isspace c = false) /\
  (forall c, last (strip s) = Some c -> isspace c = false).
Proof.
  destruct (lstrip_decompose s) as (pre & E1 & Hpre).
  destruct (rstrip_decompose (lstrip s)) as (post & E2 & Hpost).
  fold (strip s) in E2. repeat split.
  - exists pre, post. repeat split; try assumption. rewrite <- E2. exact E1.
  - intros c Hc. apply (lstrip_head s). rewrite E2.
    destruct (strip s); [discriminate|exact Hc].
  - apply rstrip_last.
Qed.

Lemma join_cons_cons (sep x y : str) (rest : list str) :
  join sep (x :: y :: rest) = x ++ sep ++ join sep (y :: rest).
Proof. reflexivity. Qed.

(** [sep.join] keeps the order: the first text, then every further text
    behind a separator. *)
Lemma join_spec (sep x : str) (rest : list str) :
  join sep (x :: rest) = x ++ concat ((fun r => sep ++ r) <$> rest).
Proof.
  revert x. induction rest as [|y rest IH]; intros x.
  - cbn. rewrite app_nil_r. reflexivity.
  - rewrite join_cons_cons, IH. cbn. rewrite <- app_assoc. reflexivity.
Qed.

(** The separator of [format_to_table] is a blank line: two line feeds. *)
Lemma blank_line_separator : utf8 "

" = [10; 10]%N.
Proof. reflexivity. Qed.

(** * The OCR pipeline *)

Section PipelineFacts.

Variable picture : Type.
Variable pil_convert : picture -> str -> result picture.
Variable pil_save : picture -> str -> Z -> result bytes.
Variable chat_groq_init : ChatGroq -> result unit.
Variable remote : list request -> request -> result str.

(** [format_to_table] in one equation: the client is built, and if that
    succeeds exactly one request goes out, whatever the list holds. *)
Lemma format_to_table_run (self : OCRProcessor) (markdown_runs : list str)
    (model : str) (log : list request) :
  format_to_table chat_groq_init remote self markdown_runs model log =
  match chat_groq_init (groq_client (groq_api_key self) model) with
  | Raise e => (Raise e, log)
  | Ok _ =>
      let req := table_request (groq_api_key self) model markdown_runs in
      (response <- remote log req ;; Ok (strip response), log ++ [req])
  end.
Proof.
  unfold format_to_table, new_ChatGroq, io_bind, io_lift, invoke, io_ret.
  fold (groq_client (groq_api_key self) model).
  destruct (chat_groq_init (groq_client (groq_api_key self) model)) as [[]|e];
    cbn [bind]; [|reflexivity].
  rewrite blank_line_separator.
  fold (table_request (groq_api_key self) model markdown_runs).
  destruct (remote log (table_request (groq_api_key self) model markdown_runs));
    reflexivity.
Qed.

Lemma encode_image_pil_run (self : OCRProcessor) (image : picture)
    (log : list request) :
  encode_image_pil pil_convert pil_save self image log =
  (rgb <- pil_convert image (utf8 "RGB") ;;
   data <- pil_save rgb (utf8 "JPEG") 90 ;;
   Ok (b64encode data), log).
Proof.
  unfold encode_image_pil, io_bind, io_lift, io_ret, write, getvalue,
    BytesIO, decode_ascii.
  destruct (pil_convert image (utf8 "RGB")) as [rgb|e]; cbn [bind];
    [|reflexivity].
  destruct (pil_save rgb (utf8 "JPEG") 90) as [data|e]; reflexivity.
Qed.

(** [ocr] in one equation. *)
Lemma ocr_run (self : OCRProcessor) (image : picture) (model : str)
    (log : list request) :
  ocr pil_convert pil_save chat_groq_init remote self image model log =
  match chat_groq_init (groq_client (groq_api_key self) model) with
  | Raise e => (Raise e, log)
  | Ok _ =>
      match fst (encode_image_pil pil_convert pil_save self image log) with
      | Raise e => (Raise e, log)
      | Ok encoded =>
          let req := ocr_request (groq_api_key self) model encoded in
          (response <- remote log req ;; Ok (strip response), log ++ [req])
      end
  end.
Proof.
  unfold ocr, new_ChatGroq. unfold io_bind at 1. unfold io_lift at 1.
  fold (groq_client (groq_api_key self) model).
  destruct (chat_groq_init (groq_client (groq_api_key self) model)) as [[]|e];
    cbn [bind]; [|reflexivity].
  unfold io_bind at 1. rewrite encode_image_pil_run. cbn [fst].
  destruct (rgb <- pil_convert image (utf8 "RGB") ;;
            data <- pil_save rgb (utf8 "JPEG") 90 ;; Ok (b64encode data))
    as [encoded|e]; [|reflexivity].
  unfold io_bind, invoke, io_ret.
  fold (ocr_request (groq_api_key self) model encoded).
  destruct (remote log (ocr_request (groq_api_key self) model encoded));
    reflexivity.
Qed.

End PipelineFacts.

(** C7: for every non-empty sequence of extracted texts (and a client that
    could be built), [format_to_table] joins the texts in order with a blank
    line between them, sends exactly one request, whose content is the
    instruction with that combined text in it, and returns the response of
    the remote model with the whitespace at its two ends removed and nothing
    else changed or checked; a failure of the remote model is passed on. *)
Theorem format_to_table_joins_sends_trims
    (chat_groq_init : ChatGroq -> result unit)
    (remote : list request -> request -> result str)
    (self : OCRProcessor) (markdown_runs : list str) (model : str)
    (log : list request) :
  markdown_runs <> [] ->
  chat_groq_init (groq_client (groq_api_key self) model) = Ok tt ->
  let combined := join [10; 10]%N markdown_runs in
  let req :=
    {| client := groq_client (groq_api_key self) model;
       messages :=
         [ {| role := utf8 "user";
              message_content :=
                content_str (table_prompt_head ++ combined ++ table_prompt_tail) |} ] |} in
  let run := format_to_table chat_groq_init remote self markdown_runs model log in
  combined = combined_text markdown_runs /\
  snd run = log ++ [req] /\
  (forall response, remote log req = Ok response ->
     fst run = Ok (strip response) /\
     (exists pre post,
        response = pre ++ strip response ++ post /\
        forallb isspace pre = true /\ forallb isspace post = true) /\
     (forall c, head (strip response) = Some c -> isspace c = false) /\
     (forall c, last (strip response) = Some c -> isspace c = false)) /\
  (forall e, remote log req = Raise e -> fst run = Raise e).
Proof.
  intros Hne Hinit combined req run.
  assert (Erun : run = (response <- remote log req ;; Ok (strip response),
                        log ++ [req])).
  { unfold run. rewrite format_to_table_run, Hinit. reflexivity. }
  split.
  - unfold combined, combined_text. destruct markdown_runs as [|x rest];
      [contradiction|]. apply join_spec.
  - rewrite Erun. cbn [fst snd]. split; [reflexivity|]. split.
    + intros response ->. split; [reflexivity|]. apply strip_spec.
    + intros e ->. reflexivity.
Qed.

Lemma format_to_table_joins_sends_trims_witness :
  join [10; 10]%N sample_runs = combined_text sample_runs /\
  snd (format_to_table accept_any (canned sample_answer) sample_processor
         sample_runs default_table_model [])
  = [] ++ [ {| client := groq_client (groq_api_key sample_processor)
                           default_table_model;
               messages :=
                 [ {| role := utf8 "user";
                      message_content :=
                        content_str
                          (table_prompt_head ++ join [10; 10]%N sample_runs
                           ++ table_prompt_tail) |} ] |} ] /\
  (forall response,
     canned sample_answer []
       {| client := groq_client (groq_api_key sample_processor)
                      default_table_model;
          messages :=
            [ {| role := utf8 "user";
                 message_content :=
                   content_str
                     (table_prompt_head ++ join [10; 10]%N sample_runs
                      ++ table_prompt_tail) |} ] |} = Ok response ->
     fst (format_to_table accept_any (canned sample_answer) sample_processor
            sample_runs default_table_model []) = Ok (strip response) /\
     (exists pre post,
        response = pre ++ strip response ++ post /\
        forallb isspace pre = true /\ forallb isspace post = true) /\
     (forall c, head (strip response) = Some c -> isspace c = false) /\
     (forall c, last (strip response) = Some c -> isspace c = false)) /\
  (forall e,
     canned sample_answer []
       {| client := groq_client (groq_api_key sample_processor)
                      default_table_model;
          messages :=
            [ {| role := utf8 "user";
                 message_content :=
                   content_str
                     (table_prompt_head ++ join [10; 10]%N sample_runs
                      ++ table_prompt_tail) |} ] |} = Raise e ->
     fst (format_to_table accept_any (canned sample_answer) sample_processor
            sample_runs default_table_model []) = Raise e).
Proof.
  apply (format_to_table_joins_sends_trims accept_any (canned sample_answer)
           sample_processor sample_runs default_table_model []).
  - discriminate.
  - reflexivity.
Defined.

(** C6 on the code: called with the empty list, [format_to_table] raises no
    [ValueError]; it joins nothing, sends the instruction with an empty
    text to the remote model, and returns the trimmed answer. *)
Theorem format_to_table_empty_list_calls_remote
    (remote : list request -> request -> result str)
    (self : OCRProcessor) (model : str) (log : list request) :
  let req :=
    {| client := groq_client (groq_api_key self) model;
       messages :=
         [ {| role := utf8 "user";
              message_content :=
                content_str (table_prompt_head ++ [] ++ table_prompt_tail) |} ] |} in
  format_to_table accept_any remote self [] model log =
  (response <- remote log req ;; Ok (strip response), log ++ [req]).
Proof.
  intros req. rewrite format_to_table_run. reflexivity.
Qed.

Example format_to_table_empty_list_canned :
  format_to_table accept_any (canned (utf8 "| a |"))
    {| groq_api_key := Some (utf8 "key") |} [] default_table_model []
  = (Ok (utf8 "| a |"),
     [table_request (Some (utf8 "key")) default_table_model []]).
Proof. vm_compute. reflexivity. Qed.

(** [encode_image_pil] on a picture that is its own JPEG bytes. *)
Example encode_image_pil_raw :
  fst (encode_image_pil raw_convert raw_save sample_processor [77; 97; 110]%N [])
  = Ok (utf8 "TWFu").
Proof. vm_compute. reflexivity. Qed.

(** With a client constructor that insists on a key, the missing credential
    stops both methods before anything is sent; the check is the
    constructor's, made at the first call and not at start-up. *)
Lemma missing_key_stopped_by_strict_client :
  ocr raw_convert raw_save require_key (canned sample_answer)
    {| groq_api_key := None |} [77; 97; 110]%N default_ocr_model []
  = (Raise GroqError, []) /\
  format_to_table require_key (canned sample_answer) {| groq_api_key := None |}
    sample_runs default_table_model []
  = (Raise GroqError, []).
Proof. split; vm_compute; reflexivity. Qed.

(** * Rounding between two integers *)

(** One alignment step keeps the mantissa between the two integer bounds
    [k] and [h] that bracket the exact value. *)
Lemma shr_fexp_between (m e k h : Z) :
  0 <= k -> 0 <= h < 2 ^ 53 -> e <= 0 ->
  k * 2 ^ (- e) <= m <= h * 2 ^ (- e) ->
  exists mrs e',
    shr_fexp PyFloat.prec PyFloat.emax m e loc_Exact = (mrs, e') /\
    e <= e' <= 0 /\
    k * 2 ^ (- e') <= shr_m mrs /\
    shr_m mrs <= round_nearest_even (shr_m mrs) (loc_of_shr_record mrs) /\
    round_nearest_even (shr_m mrs) (loc_of_shr_record mrs) <= h * 2 ^ (- e').
Proof.
  intros Hk Hh He [Hlo Hhi].
  assert (Hpe : 0 < 2 ^ (- e)) by (apply Z.pow_pos_nonneg; lia).
  assert (Hm : 0 <= m) by nia.
  destruct (shr_fexp_bound m e h Hm Hh He Hhi)
    as (mrs & e' & E & He' & Hm' & Hr & Hb).
  exists mrs, e'. repeat split; try assumption; try lia.
  unfold shr_fexp, shr, shr_record_of_loc in E. std_Z.
  destruct (fexp PyFloat.prec PyFloat.emax (Zdigits2 m + e) - e) as [|p|p] eqn:Hn.
  1,3: injection E as <- <-; cbn [shr_m]; lia.
  injection E as <- <-.
  destruct (iter_shr_1_spec p {| shr_m := m; shr_r := false; shr_s := false |} Hm)
    as [Hq _].
  rewrite Hq. cbn [shr_m].
  assert (Hpp : 0 < 2 ^ Zpos p) by (apply Z.pow_pos_nonneg; lia).
  assert (Hsplit : 2 ^ (- e) = 2 ^ (- (e + Zpos p)) * 2 ^ Zpos p).
  { rewrite <- Z.pow_add_r by lia. f_equal. lia. }
  apply Z.div_le_lower_bound; [lia|]. nia.
Qed.

(** Rounding is monotone against integers: an exact value between the
    integers [k] and [h] rounds to a float between them. *)
Lemma binary_round_aux_between (s : bool) (mx : positive) (ex k h : Z) :
  0 <= k -> 0 <= h < 2 ^ 53 -> ex <= 0 ->
  k * 2 ^ (- ex) <= Zpos mx <= h * 2 ^ (- ex) ->
  (k = 0 /\
   binary_round_aux PyFloat.prec PyFloat.emax s (Zpos mx) ex loc_Exact
   = S754_zero s) \/
  exists m e,
    binary_round_aux PyFloat.prec PyFloat.emax s (Zpos mx) ex loc_Exact
    = S754_finite s m e /\
    e <= 0 /\ k * 2 ^ (- e) <= Zpos m <= h * 2 ^ (- e).
Proof.
  intros Hk Hh Hex Hb. unfold binary_round_aux.
  destruct (shr_fexp_between (Zpos mx) ex k h Hk Hh Hex Hb)
    as (mrs1 & e1 & E1 & He1 & Hlo1 & Hr1 & Hhi1).
  rewrite E1.
  destruct (shr_fexp_between
              (round_nearest_even (shr_m mrs1) (loc_of_shr_record mrs1)) e1 k h)
    as (mrs2 & e2 & E2 & He2 & Hlo2 & Hr2 & Hhi2); try lia.
  rewrite E2.
  assert (0 < 2 ^ (- e2)) by (apply Z.pow_pos_nonneg; lia).
  destruct (shr_m mrs2) as [|m|m] eqn:Em.
  - left. split; [nia|reflexivity].
  - right. exists m, e2. std_Z.
    replace (e2 <=? PyFloat.emax - PyFloat.prec) with true
      by (symmetry; apply Z.leb_le; unfold PyFloat.emax, PyFloat.prec; lia).
    repeat split; lia.
  - nia.
Qed.

(** [float(n)] is exact for every integer of fewer than 54 bits. *)
Lemma binary_normalize_exact (n : Z) :
  - 2 ^ 53 < n < 2 ^ 53 ->
  (n = 0 /\
   binary_normalize PyFloat.prec PyFloat.emax n 0 false = S754_zero false) \/
  exists m e,
    binary_normalize PyFloat.prec PyFloat.emax n 0 false
    = S754_finite (n <? 0) m e /\
    e <= 0 /\ Zpos m = Z.abs n * 2 ^ (- e).
Proof.
  intros Hn.
  assert (Hround : forall (s : bool) (p : positive),
    Zpos p < 2 ^ 53 ->
    exists m e, binary_round PyFloat.prec PyFloat.emax s p 0 = S754_finite s m e /\
                e <= 0 /\ Zpos m = Zpos p * 2 ^ (- e)).
  { intros s p Hp. unfold binary_round, shl_align. std_Z.
    assert (Hbr : forall (q : positive) (e : Z),
      e <= 0 -> Zpos q = Zpos p * 2 ^ (- e) ->
      exists m e', binary_round_aux PyFloat.prec PyFloat.emax s (Zpos q) e loc_Exact
                   = S754_finite s m e' /\
                   e' <= 0 /\ Zpos m = Zpos p * 2 ^ (- e')).
    { intros q e He Hq.
      destruct (binary_round_aux_between s q e (Zpos p) (Zpos p))
        as [[H0 _]|(m & e' & E & He' & Hm)]; try lia.
      exists m, e'. repeat split; try assumption; lia. }
    destruct (fexp PyFloat.prec PyFloat.emax (Zpos (digits2_pos p) + 0) - 0)
      as [|d|d] eqn:Hd.
    1,2: apply Hbr; [lia|change (- 0) with 0; lia].
    apply Hbr; [lia|].
    change (@PosDef.Pos.iter) with (@Pos.iter). rewrite iter_xO_pow2.
    replace (fexp PyFloat.prec PyFloat.emax (Zpos (digits2_pos p) + 0))
      with (Zneg d) by lia.
    change (- Zneg d) with (Zpos d). reflexivity. }
  destruct n as [|p|p].
  - left. split; reflexivity.
  - right. cbn [binary_normalize]. apply (Hround false p). lia.
  - right. cbn [binary_normalize]. apply (Hround true p). lia.
Qed.

(** [int(n * f)] for a finite [f]: whenever two integers [k <= h] bracket
    the exact product of the magnitudes, the result has a magnitude between
    them and the sign of the product; nothing is raised. *)
Lemma int_mul_finite_between (n : Z) (sf : bool) (mf : positive)
    (ef k h : Z) :
  - 2 ^ 53 < n < 2 ^ 53 -> ef <= 0 -> 0 <= k -> h < 2 ^ 53 ->
  k * 2 ^ (- ef) <= Z.abs n * Zpos mf <= h * 2 ^ (- ef) ->
  exists a,
    overlap_height_of n (S754_finite sf mf ef)
    = Ok (if xorb (n <? 0) sf then - a else a) /\
    k <= a <= h.
Proof.
  intros Hn Hef Hk Hh Hb.
  assert (Hpf : 0 < 2 ^ (- ef)) by (apply Z.pow_pos_nonneg; lia).
  unfold overlap_height_of, PyFloat.int_mul, PyFloat.of_int.
  destruct (binary_normalize_exact n Hn) as [[-> E]|(m & e & E & He & Hm)];
    rewrite E; cbn [bind].
  - exists 0. split; [destruct sf; reflexivity|]. cbn in Hb. nia.
  - unfold PyFloat.mul, SFmul. std_Z.
    change (PosDef.Pos.mul m mf) with (Pos.mul m mf).
    assert (Hpe : 0 < 2 ^ (- e)) by (apply Z.pow_pos_nonneg; lia).
    assert (Hsplit : 2 ^ (- (e + ef)) = 2 ^ (- e) * 2 ^ (- ef)).
    { rewrite <- Z.pow_add_r by lia. f_equal. lia. }
    assert (0 <= h) by nia.
    destruct (binary_round_aux_between (xorb (n <? 0) sf) (m * mf) (e + ef) k h)
      as [[-> Ez]|(m' & e' & Ef & He' & Hm')]; try lia.
    { rewrite Hsplit, Pos2Z.inj_mul, Hm. split; nia. }
    + rewrite Ez. exists 0. split; [|lia].
      cbn. destruct (xorb (n <? 0) sf); reflexivity.
    + rewrite Ef. exists (Z.shiftl (Zpos m') e'). split; [reflexivity|].
      rewrite Z.shiftl_div_pow2 by assumption.
      assert (0 < 2 ^ (- e')) by (apply Z.pow_pos_nonneg; lia).
      split; [apply Z.div_le_lower_bound; lia|apply Z.div_le_upper_bound; lia].
Qed.

(** * More on the stripe splitter *)

(** Whatever the overlap, once [int(stripe_height * overlap)] has returned a
    non-negative height the loop returns the specified stripes. *)
Lemma split_with_overlap_height (image : Image) (n oh : Z)
    (f : PyFloat.float) :
  image_ok image -> 1 <= n -> 0 <= oh ->
  overlap_height_of (height image / n) f = Ok oh ->
  split_image_into_horizontal_stripes image n f
  = Ok (stripe_bounds (width image) (height image) (height image / n) oh
          <$> range n).
Proof.
  intros Hok Hn Hoh Eoh.
  unfold split_image_into_horizontal_stripes, floordiv.
  destruct (Z.eqb_spec n 0); [lia|]. cbn [bind]. rewrite Eoh. cbn [bind].
  rewrite (for_append_fmap _
             (stripe_bounds (width image) (height image) (height image / n) oh)).
  - reflexivity.
  - apply Forall_range. intros i Hi. apply stripe_at_bounds; try assumption; lia.
Qed.

Lemma overlap_height_unit_interval (h : Z) (f : PyFloat.float) :
  0 <= h < 2 ^ 53 ->
  PyFloat.valid f = true -> PyFloat.in_unit_interval f = true ->
  exists oh, overlap_height_of h f = Ok oh /\ 0 <= oh <= h.
Proof.
  intros Hh Hv Hu.
  destruct (int_mul_unit_interval h f Hh Hv Hu) as (p & k & Ep & Ek & _ & Hk).
  exists k. split; [|exact Hk].
  unfold overlap_height_of. rewrite Ep. exact Ek.
Qed.

Lemma base_height_range (image : Image) (n : Z) :
  image_ok image -> 1 <= n ->
  0 <= height image / n < 2 ^ 53 /\ n * (height image / n) <= height image.
Proof.
  intros [_ [H0 H31]] Hn.
  pose proof (Z.div_pos (height image) n ltac:(lia) ltac:(lia)).
  pose proof (Z.div_le_upper_bound (height image) n (height image)
                ltac:(lia) ltac:(nia)).
  pose proof (Z.mul_div_le (height image) n ltac:(lia)).
  change (2 ^ 31) with 2147483648 in H31.
  change (2 ^ 53) with 9007199254740992. lia.
Qed.

(** ** The overlap height against the exact product *)

(** [int(h * f)] against the exact product [h * f]: the binary64 product is
    the exact one rounded to the nearest double, so its integer part lies
    between the floor and the ceiling of the exact product. *)
Lemma overlap_height_between (h : Z) (f : PyFloat.float) :
  0 <= h < 2 ^ 53 ->
  PyFloat.valid f = true -> PyFloat.in_unit_interval f = true ->
  exists lo hi oh,
    exact_floor_product h f = Some lo /\
    exact_ceil_product h f = Some hi /\
    overlap_height_of h f = Ok oh /\
    0 <= lo /\ lo <= oh <= hi /\ hi <= lo + 1 /\ hi <= h.
Proof.
  intros Hh Hv Hu.
  assert (Hh' : - 2 ^ 53 < h < 2 ^ 53).
  { change (2 ^ 53) with 9007199254740992 in *. lia. }
  destruct (unit_interval_cases f Hv Hu) as [[s ->]|(m & e & -> & He & Hm)].
  - exists 0, 0, 0. repeat split; try lia.
    unfold overlap_height_of, PyFloat.int_mul, PyFloat.of_int.
    destruct (binary_normalize_exact h Hh') as [[_ E]|(m & e & E & _)];
      rewrite E; reflexivity.
  - cbn [exact_floor_product exact_ceil_product].
    rewrite !Z.shiftl_div_pow2 by assumption.
    assert (Hd : 0 < 2 ^ (- e)) by (apply Z.pow_pos_nonneg; lia).
    set (d := 2 ^ (- e)) in *. set (a := h * Zpos m).
    assert (Ha : 0 <= a <= h * d) by (unfold a; nia).
    pose proof (Z.div_mod a d ltac:(lia)) as Elo.
    pose proof (Z.mod_pos_bound a d Hd) as Hlo.
    pose proof (Z.div_mod (- a) d ltac:(lia)) as Ehi.
    pose proof (Z.mod_pos_bound (- a) d Hd) as Hhi.
    set (lo := a / d) in *. set (hi := - (- a / d)).
    assert (Ehi' : hi * d = a + (- a) mod d) by (unfold hi; lia).
    assert (Hlo0 : 0 <= lo) by nia.
    assert (Hhl : hi <= lo + 1) by nia.
    assert (Hhh : hi <= h) by nia.
    destruct (int_mul_finite_between h false m e lo hi Hh' He Hlo0)
      as (oh & Eoh & Hoh).
    + change (2 ^ 53) with 9007199254740992 in *. lia.
    + rewrite Z.abs_eq by lia. fold a. fold d. split; nia.
    + destruct (Z.ltb_spec h 0); [lia|]. cbn [xorb] in Eoh.
      exists lo, hi, oh. repeat split; try assumption; lia.
Qed.

(** C1, as stated, fails: for a 100 by 50 image, five stripes and the
    fraction 0.7 the base stripe height is 10 and the floor of [10 * f] is
    6, but the code's overlap height is 7, so the stripes returned are not
    the specified ones (the first ends at row 17, not 16). *)
Lemma split_overlap_height_not_exact_floor :
  ~ exists stripes,
      split_image_into_horizontal_stripes {| width := 100; height := 50 |} 5
        PyFloat.lit_0_7 = Ok stripes /\
      specified_stripes {| width := 100; height := 50 |} 5 PyFloat.lit_0_7
        stripes.
Proof.
  intros (stripes & E & oh & Ef & _ & H).
  vm_compute in Ef. injection Ef as <-.
  specialize (H 0%nat ltac:(cbn; lia)).
  vm_compute in E. injection E as <-.
  vm_compute in H. discriminate H.
Qed.

(** C1, amended: for every image, every stripe count [n >= 1] and every
    overlap fraction [f] in [[0, 1]], the call returns [n] stripes; with
    [baseStripeHeight = floor (H / n)] and [overlapHeight] the integer part
    of the double-precision product [baseStripeHeight * f], which is at
    least the floor and at most the ceiling of the exact product, stripe
    [i] has upper bound [max (i * baseStripeHeight - overlapHeight) 0],
    lower bound [min ((i + 1) * baseStripeHeight + overlapHeight) H], left
    bound 0 and right bound the image width. *)
Theorem split_stripes_rounded_overlap (image : Image) (n : Z)
    (f : PyFloat.float) :
  image_ok image -> 1 <= n ->
  PyFloat.valid f = true -> PyFloat.in_unit_interval f = true ->
  let baseStripeHeight := height image / n in
  exists floorProduct ceilProduct overlapHeight stripes,
    exact_floor_product baseStripeHeight f = Some floorProduct /\
    exact_ceil_product baseStripeHeight f = Some ceilProduct /\
    overlap_height_of baseStripeHeight f = Ok overlapHeight /\
    floorProduct <= overlapHeight <= ceilProduct /\
    ceilProduct <= floorProduct + 1 /\
    split_image_into_horizontal_stripes image n f = Ok stripes /\
    length stripes = Z.to_nat n /\
    forall i : nat, (i < Z.to_nat n)%nat ->
      stripes !! i =
      Some {| left := 0;
              upper := Z.max (Z.of_nat i * baseStripeHeight - overlapHeight) 0;
              right := width image;
              lower := Z.min ((Z.of_nat i + 1) * baseStripeHeight + overlapHeight)
                             (height image) |}.
Proof.
  intros Hok Hn Hv Hu base.
  destruct (base_height_range image n Hok Hn) as [Hbase _].
  destruct (overlap_height_between base f Hbase Hv Hu)
    as (lo & hi & oh & Elo & Ehi & Eoh & Hlo & Hoh & Hhl & _).
  exists lo, hi, oh. eexists.
  split; [exact Elo|]. split; [exact Ehi|]. split; [exact Eoh|].
  split; [exact Hoh|]. split; [exact Hhl|].
  split; [apply (split_with_overlap_height image n oh f Hok Hn); [lia|exact Eoh]|].
  split.
  - rewrite length_fmap. apply length_range.
  - intros i Hi. rewrite list_lookup_fmap, lookup_range by assumption.
    reflexivity.
Qed.

Lemma split_stripes_rounded_overlap_witness :
  exists floorProduct ceilProduct overlapHeight stripes,
    exact_floor_product (50 / 5) PyFloat.lit_0_7 = Some floorProduct /\
    exact_ceil_product (50 / 5) PyFloat.lit_0_7 = Some ceilProduct /\
    overlap_height_of (50 / 5) PyFloat.lit_0_7 = Ok overlapHeight /\
    floorProduct <= overlapHeight <= ceilProduct /\
    ceilProduct <= floorProduct + 1 /\
    split_image_into_horizontal_stripes
      {| width := 100; height := 50 |} 5 PyFloat.lit_0_7 = Ok stripes /\
    length stripes = Z.to_nat 5 /\
    forall i : nat, (i < Z.to_nat 5)%nat ->
      stripes !! i =
      Some {| left := 0;
              upper := Z.max (Z.of_nat i * (50 / 5) - overlapHeight) 0;
              right := 100;
              lower := Z.min ((Z.of_nat i + 1) * (50 / 5) + overlapHeight) 50 |}.
Proof.
  apply (split_stripes_rounded_overlap
           {| width := 100; height := 50 |} 5 PyFloat.lit_0_7).
  - unfold image_ok; cbn; lia.
  - lia.
  - reflexivity.
  - reflexivity.
Defined.

(** The amended statement at that input: the exact product lies between 6
    and 7, and the code's overlap height is 7. *)
Example overlap_height_seven_tenths :
  exact_floor_product 10 PyFloat.lit_0_7 = Some 6 /\
  exact_ceil_product 10 PyFloat.lit_0_7 = Some 7 /\
  overlap_height_of 10 PyFloat.lit_0_7 = Ok 7 /\
  exact_floor_product 39 PyFloat.lit_0_1 = Some 3 /\
  overlap_height_of 39 PyFloat.lit_0_1 = Ok 3.
Proof. repeat split; vm_compute; reflexivity. Qed.

(** The rows the specified stripes contain are an initial segment of the
    image: the stripes leave no gap between them, and stop at the end of the
    last stripe or of the image, whichever comes first. *)
Lemma covers_stripe_bounds (W H n b oh y : Z) :
  1 <= n -> 0 <= b -> 0 <= oh ->
  covers (stripe_bounds W H b oh <$> range n) y = true
  <-> 0 <= y < Z.min (n * b + oh) H.
Proof.
  intros Hn Hb Hoh. unfold covers. rewrite existsb_exists. split.
  - intros (s & Hin & Hrow).
    apply list_elem_of_In, list_elem_of_fmap in Hin. destruct Hin as (i & -> & Hi).
    unfold range in Hi. apply list_elem_of_fmap in Hi. destruct Hi as (j & -> & Hj).
    apply elem_of_seq in Hj.
    unfold has_row, stripe_bounds in Hrow; cbn [upper lower] in Hrow.
    apply andb_true_iff in Hrow. destruct Hrow as [Hu Hl].
    apply Z.leb_le in Hu. apply Z.ltb_lt in Hl.
    assert ((Z.of_nat j + 1) * b <= n * b) by nia. lia.
  - intros Hy.
    assert (Hex : exists i, 0 <= i < n /\ i * b - oh <= y /\ y < (i + 1) * b + oh).
    { destruct (Z.eq_dec b 0) as [->|Hb0]; [exists 0; lia|].
      pose proof (Z.div_mod y b Hb0) as Hyd.
      pose proof (Z.mod_pos_bound y b ltac:(lia)) as Hym.
      assert (0 <= y / b) by (apply Z.div_pos; lia).
      exists (Z.min (y / b) (n - 1)).
      destruct (Z.min_spec (y / b) (n - 1)) as [[? ->]|[? ->]];
        repeat split; try lia; nia. }
    destruct Hex as (i & Hi & Hlo & Hhi).
    exists (stripe_bounds W H b oh i). split.
    + apply list_elem_of_In, list_elem_of_fmap. exists i. split; [reflexivity|].
      unfold range. apply list_elem_of_fmap. exists (Z.to_nat i).
      split; [lia|]. apply elem_of_seq. lia.
    + unfold has_row, stripe_bounds; cbn [upper lower].
      apply andb_true_iff. split; [apply Z.leb_le|apply Z.ltb_lt]; lia.
Qed.

(** X1: for an image, a stripe count [n >= 1] and an overlap fraction in
    [[0, 1]], the rows that lie in some returned stripe are exactly the rows
    [[0, min (n * stripe_height + overlap_height) H)]: the stripes leave no
    gap between them, and the rows from [n * stripe_height + overlap_height]
    on, if any, are in no stripe. *)
Theorem split_covered_rows (image : Image) (n : Z) (f : PyFloat.float) :
  image_ok image -> 1 <= n ->
  PyFloat.valid f = true -> PyFloat.in_unit_interval f = true ->
  exists overlap_height stripes,
    overlap_height_of (height image / n) f = Ok overlap_height /\
    split_image_into_horizontal_stripes image n f = Ok stripes /\
    forall y : Z,
      covers stripes y = true
      <-> 0 <= y < Z.min (n * (height image / n) + overlap_height)
                         (height image).
Proof.
  intros Hok Hn Hv Hu.
  destruct (base_height_range image n Hok Hn) as [Hb _].
  destruct (overlap_height_unit_interval _ f Hb Hv Hu) as (oh & Eoh & Hoh).
  exists oh. eexists. split; [exact Eoh|].
  split; [apply (split_with_overlap_height image n oh f); try assumption; lia|].
  intros y. apply covers_stripe_bounds; lia.
Qed.

Lemma split_covered_rows_witness :
  exists overlap_height stripes,
    overlap_height_of (199 / 5) PyFloat.lit_0_1 = Ok overlap_height /\
    split_image_into_horizontal_stripes
      {| width := 640; height := 199 |} 5 PyFloat.lit_0_1 = Ok stripes /\
    forall y : Z,
      covers stripes y = true
      <-> 0 <= y < Z.min (5 * (199 / 5) + overlap_height) 199.
Proof.
  apply (split_covered_rows {| width := 640; height := 199 |} 5 PyFloat.lit_0_1).
  - unfold image_ok; cbn; lia.
  - lia.
  - reflexivity.
  - reflexivity.
Defined.

(** X2: for an image, a stripe count [n >= 1] and an overlap fraction in
    [[0, 1]], every row of the image lies in some stripe exactly when the
    rows the integer division leaves over, [H mod n], are at most the
    overlap height. *)
Theorem split_covers_image_iff (image : Image) (n : Z) (f : PyFloat.float) :
  image_ok image -> 1 <= n ->
  PyFloat.valid f = true -> PyFloat.in_unit_interval f = true ->
  exists overlap_height stripes,
    overlap_height_of (height image / n) f = Ok overlap_height /\
    split_image_into_horizontal_stripes image n f = Ok stripes /\
    ((forall y : Z, 0 <= y < height image -> covers stripes y = true)
     <-> height image mod n <= overlap_height).
Proof.
  intros Hok Hn Hv Hu.
  destruct (base_height_range image n Hok Hn) as [Hb Hmul].
  destruct (overlap_height_unit_interval _ f Hb Hv Hu) as (oh & Eoh & Hoh).
  exists oh. eexists. split; [exact Eoh|].
  split; [apply (split_with_overlap_height image n oh f); try assumption; lia|].
  pose proof (Z.div_mod (height image) n ltac:(lia)) as Hdm.
  pose proof (Z.mod_pos_bound (height image) n ltac:(lia)) as Hmb.
  destruct Hok as [_ [H0 _]].
  split.
  - intros Hall.
    destruct (Z.eq_dec (height image) 0) as [Hz|Hnz].
    + rewrite Hz, Z.mod_0_l by lia. lia.
    + specialize (Hall (height image - 1) ltac:(lia)).
      apply covers_stripe_bounds in Hall; lia.
  - intros Hrem y Hy. apply covers_stripe_bounds; lia.
Qed.

Lemma split_covers_image_iff_witness :
  exists overlap_height stripes,
    overlap_height_of (1000 / 5) PyFloat.lit_0_1 = Ok overlap_height /\
    split_image_into_horizontal_stripes
      {| width := 500; height := 1000 |} 5 PyFloat.lit_0_1 = Ok stripes /\
    ((forall y : Z, 0 <= y < 1000 -> covers stripes y = true)
     <-> 1000 mod 5 <= overlap_height).
Proof.
  apply (split_covers_image_iff
           {| width := 500; height := 1000 |} 5 PyFloat.lit_0_1).
  - unfold image_ok; cbn; lia.
  - lia.
  - reflexivity.
  - reflexivity.
Defined.

(** With the default overlap the overlap height is at least a tenth of the
    stripe height, rounded down, and at most one more. *)
Lemma default_overlap_height (b : Z) :
  0 <= b < 2 ^ 31 ->
  exists oh, overlap_height_of b default_overlap = Ok oh /\
             b / 10 <= oh <= b / 10 + 1.
Proof.
  intros Hb. change (2 ^ 31) with 2147483648 in Hb.
  pose proof (Z.div_mod b 10 ltac:(lia)) as Hdm.
  pose proof (Z.mod_pos_bound b 10 ltac:(lia)) as Hmb.
  destruct (int_mul_finite_between b false 7205759403792794 (-56)
              (b / 10) (b / 10 + 1)) as (a & Ea & Ha).
  - change (2 ^ 53) with 9007199254740992. lia.
  - lia.
  - lia.
  - change (2 ^ 53) with 9007199254740992. lia.
  - change (2 ^ (- -56)) with 72057594037927936. lia.
  - exists a. split; [|exact Ha].
    destruct (Z.ltb_spec b 0); [lia|]. exact Ea.
Qed.

(** X3: with the default stripe count and overlap (5 and 0.1), every image
    at least 200 rows high is covered completely: every row lies in some
    stripe and the last stripe ends at the last row. *)
Theorem default_split_covers_tall_image (image : Image) :
  image_ok image -> 200 <= height image ->
  exists stripes,
    split_image_into_horizontal_stripes image default_stripe_count
      default_overlap = Ok stripes /\
    (forall y : Z, 0 <= y < height image -> covers stripes y = true) /\
    lower <$> last stripes = Some (height image).
Proof.
  intros Hok Htall. unfold default_stripe_count.
  destruct (base_height_range image 5 Hok ltac:(lia)) as [Hb Hmul].
  assert (H31 : 0 <= height image / 5 < 2 ^ 31).
  { destruct Hok as [_ [? H31]]. change (2 ^ 31) with 2147483648 in *.
    pose proof (Z.div_le_upper_bound (height image) 5 (height image)
                  ltac:(lia) ltac:(lia)). lia. }
  destruct (default_overlap_height _ H31) as (oh & Eoh & Hoh).
  pose proof (Z.div_mod (height image) 5 ltac:(lia)) as Hdm.
  pose proof (Z.mod_pos_bound (height image) 5 ltac:(lia)) as Hmb.
  assert (H40 : 40 <= height image / 5) by lia.
  assert (H4 : 4 <= (height image / 5) / 10).
  { apply Z.div_le_lower_bound; lia. }
  eexists. split;
    [apply (split_with_overlap_height image 5 oh default_overlap);
     try assumption; lia|].
  split.
  - intros y Hy. apply covers_stripe_bounds; lia.
  - change (range 5) with [0; 1; 2; 3; 4]. cbn. f_equal. lia.
Qed.

Lemma default_split_covers_tall_image_witness :
  exists stripes,
    split_image_into_horizontal_stripes {| width := 500; height := 1000 |}
      default_stripe_count default_overlap = Ok stripes /\
    (forall y : Z, 0 <= y < 1000 -> covers stripes y = true) /\
    lower <$> last stripes = Some 1000.
Proof.
  apply (default_split_covers_tall_image {| width := 500; height := 1000 |}).
  - unfold image_ok; cbn; lia.
  - cbn. lia.
Defined.

(** X4: with one stripe, the stripe is the whole image, whatever the overlap
    fraction in [[0, 1]]. *)
Theorem split_one_stripe_is_image (image : Image) (f : PyFloat.float) :
  image_ok image ->
  PyFloat.valid f = true -> PyFloat.in_unit_interval f = true ->
  split_image_into_horizontal_stripes image 1 f
  = Ok [ {| left := 0; upper := 0;
            right := width image; lower := height image |} ].
Proof.
  intros Hok Hv Hu.
  destruct (split_unit_interval image 1 f Hok ltac:(lia) Hv Hu)
    as (p & oh & _ & _ & Hoh & Es).
  rewrite Es. rewrite Z.div_1_r in *. destruct Hok as [_ [H0 _]].
  change (range 1) with [0]. cbn. unfold stripe_bounds.
  do 3 f_equal; lia.
Qed.

Lemma split_one_stripe_is_image_witness :
  split_image_into_horizontal_stripes
    {| width := 500; height := 1000 |} 1 PyFloat.lit_0_1
  = Ok [ {| left := 0; upper := 0; right := 500; lower := 1000 |} ].
Proof.
  apply (split_one_stripe_is_image
           {| width := 500; height := 1000 |} PyFloat.lit_0_1).
  - unfold image_ok; cbn; lia.
  - reflexivity.
  - reflexivity.
Defined.

(** X5: a negative stripe count is not rejected: for every image and every
    overlap fraction in [[0, 1]] the call returns the empty list without
    raising. *)
Theorem split_negative_count_returns_empty (image : Image) (n : Z)
    (f : PyFloat.float) :
  image_ok image -> n < 0 ->
  PyFloat.valid f = true -> PyFloat.in_unit_interval f = true ->
  split_image_into_horizontal_stripes image n f = Ok [].
Proof.
  intros [_ [H0 H31]] Hn Hv Hu.
  change (2 ^ 31) with 2147483648 in H31.
  assert (Hq : - height image <= height image / n <= 0).
  { pose proof (Z.div_mod (height image) n ltac:(lia)) as Hdm.
    pose proof (Z.mod_neg_bound (height image) n Hn) as Hmb. nia. }
  assert (Hoh : exists oh, overlap_height_of (height image / n) f = Ok oh).
  { destruct (unit_interval_cases f Hv Hu)
      as [[s ->]|(mf & ef & -> & Hef & Hmf)].
    - unfold overlap_height_of, PyFloat.int_mul, PyFloat.of_int.
      destruct (binary_normalize_exact (height image / n))
        as [[-> E]|(m & e & E & _)]; try rewrite E.
      + change (2 ^ 53) with 9007199254740992. lia.
      + exists 0. reflexivity.
      + exists 0. reflexivity.
    - destruct (int_mul_finite_between (height image / n) false mf ef 0
                  (Z.abs (height image / n))) as (a & Ea & _).
      + change (2 ^ 53) with 9007199254740992. lia.
      + assumption.
      + lia.
      + change (2 ^ 53) with 9007199254740992. lia.
      + assert (0 < 2 ^ (- ef)) by (apply Z.pow_pos_nonneg; lia). nia.
      + eexists. exact Ea. }
  destruct Hoh as (oh & Eoh).
  unfold split_image_into_horizontal_stripes, floordiv.
  destruct (Z.eqb_spec n 0); [lia|]. cbn [bind]. rewrite Eoh. cbn [bind].
  unfold range. replace (Z.to_nat n) with 0%nat by lia. reflexivity.
Qed.

Lemma split_negative_count_returns_empty_witness :
  split_image_into_horizontal_stripes
    {| width := 500; height := 1000 |} (-3) PyFloat.lit_0_1 = Ok [].
Proof.
  apply (split_negative_count_returns_empty
           {| width := 500; height := 1000 |} (-3) PyFloat.lit_0_1).
  - unfold image_ok; cbn; lia.
  - lia.
  - reflexivity.
  - reflexivity.
Defined.

(** X6: for [n >= 2] stripes and an overlap fraction in [[0, 1]], the first
    stripe is [stripe_height + overlap_height] rows tall, every stripe that
    is neither first nor last is [stripe_height + 2 * overlap_height] rows
    tall and starts [overlap_height] rows above [i * stripe_height], and no
    stripe is taller than that. *)
Theorem split_stripe_heights (image : Image) (n : Z) (f : PyFloat.float) :
  image_ok image -> 2 <= n ->
  PyFloat.valid f = true -> PyFloat.in_unit_interval f = true ->
  let stripe_height := height image / n in
  exists overlap_height stripes,
    overlap_height_of stripe_height f = Ok overlap_height /\
    split_image_into_horizontal_stripes image n f = Ok stripes /\
    forall (i : nat) (s : Stripe), stripes !! i = Some s ->
      lower s - upper s <= stripe_height + 2 * overlap_height /\
      (i = 0%nat ->
       upper s = 0 /\ lower s = stripe_height + overlap_height) /\
      ((0 < i)%nat -> (i + 1 < Z.to_nat n)%nat ->
       upper s = Z.of_nat i * stripe_height - overlap_height /\
       lower s - upper s = stripe_height + 2 * overlap_height).
Proof.
  intros Hok Hn Hv Hu b.
  destruct (base_height_range image n Hok ltac:(lia)) as [Hb Hmul]. fold b in Hb, Hmul.
  destruct (overlap_height_unit_interval b f Hb Hv Hu) as (oh & Eoh & Hoh).
  exists oh. eexists. split; [exact Eoh|].
  split; [apply (split_with_overlap_height image n oh f); try assumption; lia|].
  intros i s Hs. fold b in Hs.
  rewrite list_lookup_fmap in Hs.
  destruct (range n !! i) as [k|] eqn:Hk; [|discriminate].
  pose proof (lookup_lt_Some _ _ _ Hk) as Hlt. rewrite length_range in Hlt.
  rewrite lookup_range in Hk by assumption.
  injection Hk as <-. cbn in Hs. injection Hs as <-.
  unfold stripe_bounds; cbn [upper lower].
  assert (Hi : (Z.of_nat i + 1) * b <= n * b) by nia.
  assert (Hi0 : 0 <= Z.of_nat i * b) by nia.
  split; [lia|]. split.
  - intros ->. change (Z.of_nat 0) with 0. nia.
  - intros Hpos Hint.
    assert ((Z.of_nat i + 2) * b <= n * b) by nia.
    assert (1 * b <= Z.of_nat i * b) by nia. lia.
Qed.

Lemma split_stripe_heights_witness :
  exists overlap_height stripes,
    overlap_height_of (1000 / 5) PyFloat.lit_0_1 = Ok overlap_height /\
    split_image_into_horizontal_stripes
      {| width := 500; height := 1000 |} 5 PyFloat.lit_0_1 = Ok stripes /\
    forall (i : nat) (s : Stripe), stripes !! i = Some s ->
      lower s - upper s <= 1000 / 5 + 2 * overlap_height /\
      (i = 0%nat ->
       upper s = 0 /\ lower s = 1000 / 5 + overlap_height) /\
      ((0 < i)%nat -> (i + 1 < Z.to_nat 5)%nat ->
       upper s = Z.of_nat i * (1000 / 5) - overlap_height /\
       lower s - upper s = 1000 / 5 + 2 * overlap_height).
Proof.
  apply (split_stripe_heights {| width := 500; height := 1000 |} 5 PyFloat.lit_0_1).
  - unfold image_ok; cbn; lia.
  - lia.
  - reflexivity.
  - reflexivity.
Defined.

(** X7: with overlap fraction 0.0 the stripes do not overlap: stripe [i] is
    exactly the rows [[i * stripe_height, (i + 1) * stripe_height)], so each
    stripe starts where the one before it ends. *)
Theorem split_without_overlap_tiles (image : Image) (n : Z) :
  image_ok image -> 1 <= n ->
  split_image_into_horizontal_stripes image n PyFloat.zero
  = Ok ((fun i => {| left := 0; upper := i * (height image / n);
                     right := width image;
                     lower := (i + 1) * (height image / n) |})
          <$> range n).
Proof.
  intros Hok Hn.
  destruct (base_height_range image n Hok Hn) as [Hb Hmul].
  assert (Eoh : overlap_height_of (height image / n) PyFloat.zero = Ok 0).
  { unfold overlap_height_of, PyFloat.int_mul, PyFloat.of_int.
    destruct (binary_normalize_exact (height image / n))
      as [[_ E]|(m & e & E & _)]; try rewrite E; try reflexivity.
    change (2 ^ 53) with 9007199254740992 in *. lia. }
  rewrite (split_with_overlap_height image n 0 PyFloat.zero Hok Hn ltac:(lia) Eoh).
  f_equal. apply list_eq. intros j. rewrite !list_lookup_fmap.
  destruct (range n !! j) as [k|] eqn:Hk; [|reflexivity].
  pose proof (lookup_lt_Some _ _ _ Hk) as Hlt. rewrite length_range in Hlt.
  rewrite lookup_range in Hk by assumption. injection Hk as <-.
  cbn. unfold stripe_bounds. f_equal.
  assert ((Z.of_nat j + 1) * (height image / n) <= n * (height image / n)) by nia.
  assert (0 <= Z.of_nat j * (height image / n)) by nia.
  f_equal; lia.
Qed.

Lemma split_without_overlap_tiles_witness :
  split_image_into_horizontal_stripes
    {| width := 500; height := 1000 |} 3 PyFloat.zero
  = Ok ((fun i => {| left := 0; upper := i * (1000 / 3);
                     right := 500;
                     lower := (i + 1) * (1000 / 3) |})
          <$> range 3).
Proof.
  apply (split_without_overlap_tiles {| width := 500; height := 1000 |} 3).
  - unfold image_ok; cbn; lia.
  - lia.
Defined.

(** X8: with overlap fraction 1.0 the overlap height is the whole stripe
    height: stripe [i] spans the rows from [(i - 1) * stripe_height] to
    [(i + 2) * stripe_height], cut to the image. *)
Theorem split_full_overlap (image : Image) (n : Z) :
  image_ok image -> 1 <= n ->
  split_image_into_horizontal_stripes image n PyFloat.one
  = Ok ((fun i => {| left := 0;
                     upper := Z.max ((i - 1) * (height image / n)) 0;
                     right := width image;
                     lower := Z.min ((i + 2) * (height image / n))
                                    (height image) |})
          <$> range n).
Proof.
  intros Hok Hn.
  destruct (base_height_range image n Hok Hn) as [Hb Hmul].
  assert (Eoh : overlap_height_of (height image / n) PyFloat.one
                = Ok (height image / n)).
  { destruct (int_mul_finite_between (height image / n) false
                4503599627370496 (-52) (height image / n) (height image / n))
      as (a & Ea & Ha).
    - lia.
    - lia.
    - lia.
    - lia.
    - rewrite Z.abs_eq by lia. change (2 ^ (- -52)) with 4503599627370496. lia.
    - destruct (Z.ltb_spec (height image / n) 0); [lia|].
      cbn [xorb] in Ea. unfold PyFloat.one. rewrite Ea. f_equal. lia. }
  rewrite (split_with_overlap_height image n (height image / n) PyFloat.one
             Hok Hn ltac:(lia) Eoh).
  f_equal. apply list_eq. intros j. rewrite !list_lookup_fmap.
  destruct (range n !! j) as [k|]; [|reflexivity].
  cbn. unfold stripe_bounds. do 2 f_equal; f_equal; lia.
Qed.

Lemma split_full_overlap_witness :
  split_image_into_horizontal_stripes
    {| width := 500; height := 1000 |} 5 PyFloat.one
  = Ok ((fun i => {| left := 0;
                     upper := Z.max ((i - 1) * (1000 / 5)) 0;
                     right := 500;
                     lower := Z.min ((i + 2) * (1000 / 5)) 1000 |})
          <$> range 5).
Proof.
  apply (split_full_overlap {| width := 500; height := 1000 |} 5).
  - unfold image_ok; cbn; lia.
  - lia.
Defined.

(** X9: [int(stripe_height * overlap)] never raises for a stripe height
    below 2^53 and an overlap fraction in [[0, 1]], and the overlap height
    is neither negative nor larger than the stripe height. *)
Theorem overlap_height_at_most_stripe_height (stripe_height : Z)
    (overlap : PyFloat.float) :
  0 <= stripe_height < 2 ^ 53 ->
  PyFloat.valid overlap = true -> PyFloat.in_unit_interval overlap = true ->
  exists overlap_height,
    overlap_height_of stripe_height overlap = Ok overlap_height /\
    0 <= overlap_height <= stripe_height.
Proof. apply overlap_height_unit_interval. Qed.

Lemma overlap_height_at_most_stripe_height_witness :
  exists overlap_height,
    overlap_height_of 39 PyFloat.lit_0_1 = Ok overlap_height /\
    0 <= overlap_height <= 39.
Proof.
  apply (overlap_height_at_most_stripe_height 39 PyFloat.lit_0_1).
  - change (2 ^ 53) with 9007199254740992. lia.
  - reflexivity.
  - reflexivity.
Defined.

(** X10: with the default overlap 0.1 the overlap height is a tenth of the
    stripe height rounded down, or one row more. *)
Theorem default_overlap_is_a_tenth (stripe_height : Z) :
  0 <= stripe_height < 2 ^ 31 ->
  exists overlap_height,
    overlap_height_of stripe_height default_overlap = Ok overlap_height /\
    stripe_height / 10 <= overlap_height <= stripe_height / 10 + 1.
Proof. apply default_overlap_height. Qed.

Lemma default_overlap_is_a_tenth_witness :
  exists overlap_height,
    overlap_height_of 200 default_overlap = Ok overlap_height /\
    200 / 10 <= overlap_height <= 200 / 10 + 1.
Proof.
  apply (default_overlap_is_a_tenth 200).
  change (2 ^ 31) with 2147483648. lia.
Defined.

(** * Base64 *)

Lemma b64_char_in_alphabet (v : N) : is_base64_char (b64_char v) = true.
Proof.
  unfold b64_char, is_base64_char.
  destruct (N.ltb_spec v 26); [|destruct (N.ltb_spec v 52);
    [|destruct (N.ltb_spec v 62); [|destruct (N.eqb_spec v 62)]]].
  - replace ((65 <=? 65 + v)%N) with true by (symmetry; apply N.leb_le; lia).
    replace ((65 + v <=? 90)%N) with true by (symmetry; apply N.leb_le; lia).
    reflexivity.
  - replace ((97 <=? 71 + v)%N) with true by (symmetry; apply N.leb_le; lia).
    replace ((71 + v <=? 122)%N) with true by (symmetry; apply N.leb_le; lia).
    rewrite !orb_true_r. reflexivity.
  - replace ((48 <=? v - 4)%N) with true by (symmetry; apply N.leb_le; lia).
    replace ((v - 4 <=? 57)%N) with true by (symmetry; apply N.leb_le; lia).
    rewrite !orb_true_r. reflexivity.
  - reflexivity.
  - reflexivity.
Qed.

(** Induction over a byte list three bytes at a time, as [b64encode] reads
    it. *)
Lemma bytes_by_three (P : bytes -> Prop) :
  P [] -> (forall a, P [a]) -> (forall a b, P [a; b]) ->
  (forall a b c rest, P rest -> P (a :: b :: c :: rest)) ->
  forall bs, P bs.
Proof.
  intros H0 H1 H2 H3.
  assert (Hall : forall bs, P bs /\ (forall a, P (a :: bs))
                            /\ (forall a b, P (a :: b :: bs))).
  { induction bs as [|c bs (IH0 & IH1 & IH2)].
    - repeat split; auto.
    - repeat split; auto. }
  intros bs. apply Hall.
Qed.

Lemma b64encode_alphabet (bs : bytes) :
  forallb is_base64_char (b64encode bs) = true.
Proof.
  induction bs as [|a|a b|a b c rest IH] using bytes_by_three;
    cbn [b64encode forallb app]; rewrite ?b64_char_in_alphabet; auto.
Qed.

Lemma b64encode_length (bs : bytes) :
  Z.of_nat (length (b64encode bs)) = 4 * ((Z.of_nat (length bs) + 2) / 3).
Proof.
  induction bs as [|a|a b|a b c rest IH] using bytes_by_three.
  - reflexivity.
  - reflexivity.
  - reflexivity.
  - cbn [b64encode length app].
    replace (Z.of_nat (S (S (S (length rest)))) + 2)
      with ((Z.of_nat (length rest) + 2) + 1 * 3) by lia.
    rewrite Z.div_add by lia. lia.
Qed.

Lemma b64_value_char (v : N) : (v < 64)%N -> b64_value (b64_char v) = v.
Proof.
  intros Hv. unfold b64_char.
  destruct (N.ltb_spec v 26); [|destruct (N.ltb_spec v 52);
    [|destruct (N.ltb_spec v 62); [|destruct (N.eqb_spec v 62)]]];
    unfold b64_value.
  - replace ((65 <=? 65 + v)%N) with true by (symmetry; apply N.leb_le; lia).
    replace ((65 + v <=? 90)%N) with true by (symmetry; apply N.leb_le; lia).
    cbn [andb]. lia.
  - replace ((65 + 0 <=? 71 + v)%N) with true by (symmetry; apply N.leb_le; lia).
    replace ((71 + v <=? 90)%N) with false by (symmetry; apply N.leb_gt; lia).
    replace ((97 <=? 71 + v)%N) with true by (symmetry; apply N.leb_le; lia).
    replace ((71 + v <=? 122)%N) with true by (symmetry; apply N.leb_le; lia).
    rewrite andb_false_r. cbn [andb]. lia.
  - replace ((v - 4 <=? 90)%N) with true by (symmetry; apply N.leb_le; lia).
    replace ((65 <=? v - 4)%N) with false by (symmetry; apply N.leb_gt; lia).
    replace ((97 <=? v - 4)%N) with false by (symmetry; apply N.leb_gt; lia).
    replace ((48 <=? v - 4)%N) with true by (symmetry; apply N.leb_le; lia).
    replace ((v - 4 <=? 57)%N) with true by (symmetry; apply N.leb_le; lia).
    cbn [andb]. lia.
  - subst v. reflexivity.
  - assert (v = 63%N) as -> by lia. reflexivity.
Qed.

Lemma b64_char_not_padding (v : N) : (b64_char v =? 61)%N = false.
Proof.
  apply N.eqb_neq. unfold b64_char.
  destruct (N.ltb_spec v 26); [lia|]. destruct (N.ltb_spec v 52); [lia|].
  destruct (N.ltb_spec v 62); [lia|]. destruct (N.eqb_spec v 62); lia.
Qed.

(** Reading an encoding back gives the bytes that were encoded. *)
Lemma b64_read_encode (bs : bytes) :
  Forall (fun b => (b < 256)%N) bs -> b64_read (b64encode bs) = bs.
Proof.
  induction bs as [|a|a b|a b c rest IH] using bytes_by_three; intros Hall.
  - reflexivity.
  - inversion Hall as [|? ? Ha _]; subst.
    cbn [b64encode b64_read]. rewrite N.eqb_refl.
    rewrite !b64_value_char by euclid_lia. f_equal. euclid_lia.
  - inversion Hall as [|? ? Ha Hall']; subst.
    inversion Hall' as [|? ? Hb _]; subst.
    cbn [b64encode b64_read]. rewrite b64_char_not_padding, N.eqb_refl.
    rewrite !b64_value_char by euclid_lia.
    f_equal; [euclid_lia|f_equal; euclid_lia].
  - inversion Hall as [|? ? Ha Hall']; subst.
    inversion Hall' as [|? ? Hb Hall'']; subst.
    inversion Hall'' as [|? ? Hc Hrest]; subst.
    cbn [b64encode app b64_read]. rewrite !b64_char_not_padding.
    rewrite !b64_value_char by euclid_lia. rewrite IH by assumption.
    cbn [app]. f_equal; [euclid_lia|f_equal; [euclid_lia|f_equal; euclid_lia]].
Qed.

(** * More on the encoder and on [ocr] *)

(** X11: what [encode_image_pil] returns is base64 text: every character is
    a letter, a digit, [+], [/] or [=], and for JPEG data of [k] bytes it is
    [4 * ceil (k / 3)] characters long. *)
Theorem encode_image_pil_is_base64 (picture : Type)
    (pil_convert : picture -> str -> result picture)
    (pil_save : picture -> str -> Z -> result bytes)
    (self : OCRProcessor) (image : picture) (log : list request)
    (encoded : str) :
  fst (encode_image_pil pil_convert pil_save self image log) = Ok encoded ->
  forallb is_base64_char encoded = true /\
  exists rgb data,
    pil_convert image (utf8 "RGB") = Ok rgb /\
    pil_save rgb (utf8 "JPEG") 90 = Ok data /\
    Z.of_nat (length encoded) = 4 * ((Z.of_nat (length data) + 2) / 3).
Proof.
  rewrite encode_image_pil_run. cbn [fst].
  destruct (pil_convert image (utf8 "RGB")) as [rgb|e] eqn:Ec; [|discriminate].
  cbn [bind]. destruct (pil_save rgb (utf8 "JPEG") 90) as [data|e] eqn:Es;
    [|discriminate].
  cbn [bind]. intros [= <-]. split; [apply b64encode_alphabet|].
  exists rgb, data. split; [reflexivity|]. split; [exact Es|].
  apply b64encode_length.
Qed.

Lemma encode_image_pil_is_base64_witness :
  forallb is_base64_char (utf8 "TWFuIQ==") = true /\
  exists rgb data,
    raw_convert [77; 97; 110; 33]%N (utf8 "RGB") = Ok rgb /\
    raw_save rgb (utf8 "JPEG") 90 = Ok data /\
    Z.of_nat (length (utf8 "TWFuIQ==")) = 4 * ((Z.of_nat (length data) + 2) / 3).
Proof.
  apply (encode_image_pil_is_base64 bytes raw_convert raw_save sample_processor
           [77; 97; 110; 33]%N [] (utf8 "TWFuIQ==")).
  reflexivity.
Defined.

(** X12: the encoding loses nothing of the JPEG data: two images whose
    encodings are the same text have the same JPEG bytes. *)
Theorem encode_image_pil_keeps_data (picture : Type)
    (pil_convert : picture -> str -> result picture)
    (pil_save : picture -> str -> Z -> result bytes)
    (self1 self2 : OCRProcessor) (image1 image2 rgb1 rgb2 : picture)
    (data1 data2 : bytes) (log1 log2 : list request) :
  pil_convert image1 (utf8 "RGB") = Ok rgb1 ->
  pil_save rgb1 (utf8 "JPEG") 90 = Ok data1 ->
  pil_convert image2 (utf8 "RGB") = Ok rgb2 ->
  pil_save rgb2 (utf8 "JPEG") 90 = Ok data2 ->
  forallb (fun b => (b <? 256)%N) data1 = true ->
  forallb (fun b => (b <? 256)%N) data2 = true ->
  fst (encode_image_pil pil_convert pil_save self1 image1 log1)
  = fst (encode_image_pil pil_convert pil_save self2 image2 log2) ->
  data1 = data2.
Proof.
  intros C1 S1 C2 S2 B1 B2. rewrite !encode_image_pil_run. cbn [fst].
  rewrite C1, C2. cbn [bind]. rewrite S1, S2. cbn [bind]. intros [= E].
  assert (Hb : forall d, forallb (fun b => (b <? 256)%N) d = true ->
                         Forall (fun b => (b < 256)%N) d).
  { intros d Hd. apply Forall_forall. intros x Hx.
    rewrite forallb_forall in Hd. apply N.ltb_lt, Hd, list_elem_of_In, Hx. }
  rewrite <- (b64_read_encode data1), <- (b64_read_encode data2), E by auto.
  reflexivity.
Qed.

Lemma encode_image_pil_keeps_data_witness :
  let image1 := Opened sample_file {| width := 500; height := 1000 |} in
  let image2 :=
    Resized (Opened [9]%N {| width := 1; height := 1 |}) 500 1000 in
  image1 <> image2 /\
  fst (encode_image_pil picture_convert picture_save sample_processor
         image1 [])
  = fst (encode_image_pil picture_convert picture_save
           {| groq_api_key := None |} image2 []) /\
  picture_save image1 (utf8 "JPEG") 90 = picture_save image2 (utf8 "JPEG") 90.
Proof.
  intros image1 image2.
  split; [discriminate|]. split; [reflexivity|].
  change (@Ok bytes [244; 232]%N = Ok [244; 232]%N). refine (f_equal Ok _).
  apply (encode_image_pil_keeps_data Picture picture_convert picture_save
           sample_processor {| groq_api_key := None |}
           image1 image2 image1 image2 [244; 232]%N [244; 232]%N [] []);
    reflexivity.
Defined.

(** Under a codec that keeps the bytes, images that differ in one byte get
    different texts. *)
Example encode_image_pil_tells_apart :
  fst (encode_image_pil raw_convert raw_save sample_processor
         [77; 97; 110]%N [])
  <> fst (encode_image_pil raw_convert raw_save sample_processor
            [77; 97; 111]%N []).
Proof. vm_compute. discriminate. Qed.

(** X13: when the client can be built and the image can be encoded, [ocr]
    sends exactly one request: one user message holding the fixed
    instruction and the image as a JPEG data URL of the encoded text. It
    returns the response with the whitespace at both ends removed, and
    passes a failure of the remote model on. *)
Theorem ocr_sends_one_request (picture : Type)
    (pil_convert : picture -> str -> result picture)
    (pil_save : picture -> str -> Z -> result bytes)
    (chat_groq_init : ChatGroq -> result unit)
    (remote : list request -> request -> result str)
    (self : OCRProcessor) (image : picture) (model : str)
    (log : list request) (encoded : str) :
  chat_groq_init (groq_client (groq_api_key self) model) = Ok tt ->
  fst (encode_image_pil pil_convert pil_save self image log) = Ok encoded ->
  let req :=
    {| client := groq_client (groq_api_key self) model;
       messages :=
         [ {| role := utf8 "user";
              message_content :=
                content_parts
                  [ text_part ocr_prompt;
                    image_url_part
                      (utf8 "data:image/jpeg;base64," ++ encoded) ] |} ] |} in
  let run := ocr pil_convert pil_save chat_groq_init remote self image model
               log in
  snd run = log ++ [req] /\
  (forall response, remote log req = Ok response ->
     fst run = Ok (strip response) /\
     (forall c, head (strip response) = Some c -> isspace c = false) /\
     (forall c, last (strip response) = Some c -> isspace c = false)) /\
  (forall e, remote log req = Raise e -> fst run = Raise e).
Proof.
  intros Hinit Henc req run.
  assert (Erun : run = (response <- remote log req ;; Ok (strip response),
                        log ++ [req])).
  { unfold run. rewrite ocr_run, Hinit, Henc. reflexivity. }
  rewrite Erun. cbn [fst snd]. split; [reflexivity|]. split.
  - intros response ->. split; [reflexivity|]. apply strip_spec.
  - intros e ->. reflexivity.
Qed.

Lemma ocr_sends_one_request_witness :
  snd (ocr raw_convert raw_save accept_any (canned sample_answer)
         sample_processor [77; 97; 110]%N default_ocr_model [])
  = [] ++ [ {| client := groq_client (groq_api_key sample_processor)
                           default_ocr_model;
               messages :=
                 [ {| role := utf8 "user";
                      message_content :=
                        content_parts
                          [ text_part ocr_prompt;
                            image_url_part
                              (utf8 "data:image/jpeg;base64,"
                               ++ utf8 "TWFu") ] |} ] |} ] /\
  (forall response,
     canned sample_answer []
       {| client := groq_client (groq_api_key sample_processor)
                      default_ocr_model;
          messages :=
            [ {| role := utf8 "user";
                 message_content :=
                   content_parts
                     [ text_part ocr_prompt;
                       image_url_part
                         (utf8 "data:image/jpeg;base64,"
                          ++ utf8 "TWFu") ] |} ] |} = Ok response ->
     fst (ocr raw_convert raw_save accept_any (canned sample_answer)
            sample_processor [77; 97; 110]%N default_ocr_model [])
     = Ok (strip response) /\
     (forall c, head (strip response) = Some c -> isspace c = false) /\
     (forall c, last (strip response) = Some c -> isspace c = false)) /\
  (forall e,
     canned sample_answer []
       {| client := groq_client (groq_api_key sample_processor)
                      default_ocr_model;
          messages :=
            [ {| role := utf8 "user";
                 message_content :=
                   content_parts
                     [ text_part ocr_prompt;
                       image_url_part
                         (utf8 "data:image/jpeg;base64,"
                          ++ utf8 "TWFu") ] |} ] |} = Raise e ->
     fst (ocr raw_convert raw_save accept_any (canned sample_answer)
            sample_processor [77; 97; 110]%N default_ocr_model [])
     = Raise e).
Proof.
  apply (ocr_sends_one_request bytes raw_convert raw_save accept_any
           (canned sample_answer) sample_processor [77; 97; 110]%N
           default_ocr_model [] (utf8 "TWFu")).
  - reflexivity.
  - reflexivity.
Defined.

(** X14: [ocr] sends nothing unless both the client and the encoding
    succeed: a failure to build the client is raised before the image is
    touched, and a failure of the codec is raised before any request. *)
Theorem ocr_failure_sends_nothing (picture : Type)
    (pil_convert : picture -> str -> result picture)
    (pil_save : picture -> str -> Z -> result bytes)
    (chat_groq_init : ChatGroq -> result unit)
    (remote : list request -> request -> result str)
    (self : OCRProcessor) (image : picture) (model : str)
    (log : list request) (e : exn) :
  chat_groq_init (groq_client (groq_api_key self) model) = Raise e \/
  (chat_groq_init (groq_client (groq_api_key self) model) = Ok tt /\
   (pil_convert image (utf8 "RGB") = Raise e \/
    exists rgb, pil_convert image (utf8 "RGB") = Ok rgb /\
                pil_save rgb (utf8 "JPEG") 90 = Raise e)) ->
  ocr pil_convert pil_save chat_groq_init remote self image model log
  = (Raise e, log).
Proof.
  rewrite ocr_run, encode_image_pil_run. cbn [fst].
  intros [->|[-> [->|(rgb & -> & Es)]]]; cbn [bind]; try reflexivity.
  rewrite Es. reflexivity.
Qed.

Lemma ocr_failure_sends_nothing_witness :
  ocr raw_convert (fun _ _ _ => Raise OSError) accept_any
    (canned sample_answer) sample_processor [77; 97; 110]%N
    default_ocr_model []
  = (Raise OSError, []).
Proof.
  apply (ocr_failure_sends_nothing bytes raw_convert
           (fun _ _ _ => Raise OSError) accept_any (canned sample_answer)
           sample_processor [77; 97; 110]%N default_ocr_model [] OSError).
  right. split; [reflexivity|]. right.
  exists [77; 97; 110]%N. split; reflexivity.
Defined.

(** * More on the configuration *)

(** X15: the key the processor gets is the one of the process environment
    when it has one, else the one of the [.env] file, and none only when
    neither has it. *)
Theorem groq_api_key_precedence (dotenv environ : gmap str str) :
  groq_api_key (OCRProcessor_init (GROQ_API_KEY dotenv environ))
  = match environ !! utf8 "GROQ_API_KEY" with
    | Some key => Some key
    | None => dotenv !! utf8 "GROQ_API_KEY"
    end.
Proof.
  unfold OCRProcessor_init, GROQ_API_KEY, getenv, load_dotenv.
  cbn [groq_api_key]. rewrite lookup_union.
  destruct (environ !! utf8 "GROQ_API_KEY"), (dotenv !! utf8 "GROQ_API_KEY");
    reflexivity.
Qed.

(** * The application *)

Lemma ui_bind_show {B : Type} (e : ui_event) (k : unit -> ui B) (w : world) :
  (x <~~ show e ;; k x) w
  = k tt {| sent := sent w; screen := screen w ++ [e] |}.
Proof. reflexivity. Qed.

Lemma ui_bind_result_ok {A B : Type} (r : result A) (a : A) (k : A -> ui B)
    (w : world) :
  r = Ok a -> (x <~~ ui_result r ;; k x) w = k a w.
Proof. intros ->. reflexivity. Qed.

Lemma ui_bind_result_raise {A B : Type} (r : result A) (e : exn)
    (k : A -> ui B) (w : world) :
  r = Raise e -> (x <~~ ui_result r ;; k x) w = (Raise e, w).
Proof. intros ->. reflexivity. Qed.

Lemma ui_bind_io_ok {A B : Type} (m : io A) (a : A) (log : list request)
    (k : A -> ui B) (w : world) :
  m (sent w) = (Ok a, log) ->
  (x <~~ ui_io m ;; k x) w = k a {| sent := log; screen := screen w |}.
Proof. intros E. unfold ui_bind, ui_io. rewrite E. reflexivity. Qed.

Lemma ui_bind_io_raise {A B : Type} (m : io A) (e : exn) (log : list request)
    (k : A -> ui B) (w : world) :
  m (sent w) = (Raise e, log) ->
  (x <~~ ui_io m ;; k x) w = (Raise e, {| sent := log; screen := screen w |}).
Proof. intros E. unfold ui_bind, ui_io. rewrite E. reflexivity. Qed.

Section ApplicationFacts.

Variable pil_open : bytes -> result Image.
Variable pil_convert : Picture -> str -> result Picture.
Variable pil_save : Picture -> str -> Z -> result bytes.
Variable chat_groq_init : ChatGroq -> result unit.
Variable remote : list request -> request -> result str.
Variable ocr_processor : OCRProcessor.

(** One pass of the inner loop whose remote call is answered. *)
Lemma for_stripes_answered (total_steps i : Z) (stripe : Picture)
    (rest : list (Z * Picture)) (step : Z) (markdown_runs : list str)
    (w : world) (progress : PyFloat.float) (percent : Z)
    (encoded answer : str) :
  true_div (step + 1) total_steps = Ok progress ->
  (p <- float_mul_int progress 100 ;; PyFloat.to_int p) = Ok percent ->
  chat_groq_init (groq_client (groq_api_key ocr_processor) script_ocr_model)
  = Ok tt ->
  encoding_of pil_convert pil_save stripe = Ok encoded ->
  remote (sent w)
    (ocr_request (groq_api_key ocr_processor) script_ocr_model encoded)
  = Ok answer ->
  for_stripes pil_convert pil_save chat_groq_init remote ocr_processor
    1 total_steps ((i, stripe) :: rest) step markdown_runs w
  = for_stripes pil_convert pil_save chat_groq_init remote ocr_processor
      1 total_steps rest (step + 1) (markdown_runs ++ [strip answer])
      {| sent := sent w
                 ++ [ocr_request (groq_api_key ocr_processor)
                        script_ocr_model encoded];
         screen := screen w ++ stripe_events i progress percent |}.
Proof.
  intros Hdiv Hpct Hinit Henc Hans. cbn [for_stripes].
  rewrite (ui_bind_result_ok _ progress) by exact Hdiv.
  rewrite ui_bind_show.
  rewrite (ui_bind_result_ok _ percent) by exact Hpct.
  rewrite !ui_bind_show.
  rewrite (ui_bind_io_ok _ (strip answer)
             (sent w ++ [ocr_request (groq_api_key ocr_processor)
                           script_ocr_model encoded])).
  - cbn [sent screen]. unfold stripe_events.
    rewrite <- !app_assoc. reflexivity.
  - cbn [sent]. rewrite ocr_run.
    rewrite Hinit, encode_image_pil_run. cbn [fst].
    unfold encoding_of in Henc. rewrite Henc, Hans. reflexivity.
Qed.

(** One pass of the inner loop whose remote call fails. *)
Lemma for_stripes_refused (total_steps i : Z) (stripe : Picture)
    (rest : list (Z * Picture)) (step : Z) (markdown_runs : list str)
    (w : world) (progress : PyFloat.float) (percent : Z)
    (encoded : str) (e : exn) :
  true_div (step + 1) total_steps = Ok progress ->
  (p <- float_mul_int progress 100 ;; PyFloat.to_int p) = Ok percent ->
  chat_groq_init (groq_client (groq_api_key ocr_processor) script_ocr_model)
  = Ok tt ->
  encoding_of pil_convert pil_save stripe = Ok encoded ->
  remote (sent w)
    (ocr_request (groq_api_key ocr_processor) script_ocr_model encoded)
  = Raise e ->
  for_stripes pil_convert pil_save chat_groq_init remote ocr_processor
    1 total_steps ((i, stripe) :: rest) step markdown_runs w
  = (Raise e,
     {| sent := sent w
                ++ [ocr_request (groq_api_key ocr_processor)
                       script_ocr_model encoded];
        screen := screen w ++ stripe_events i progress percent |}).
Proof.
  intros Hdiv Hpct Hinit Henc Hans. cbn [for_stripes].
  rewrite (ui_bind_result_ok _ progress) by exact Hdiv.
  rewrite ui_bind_show.
  rewrite (ui_bind_result_ok _ percent) by exact Hpct.
  rewrite !ui_bind_show.
  rewrite (ui_bind_io_raise _ e
             (sent w ++ [ocr_request (groq_api_key ocr_processor)
                           script_ocr_model encoded])).
  - cbn [sent screen]. unfold stripe_events.
    rewrite <- !app_assoc. reflexivity.
  - cbn [sent]. rewrite ocr_run.
    rewrite Hinit, encode_image_pil_run. cbn [fst].
    unfold encoding_of in Henc. rewrite Henc, Hans. reflexivity.
Qed.

End ApplicationFacts.

(** The enlarged side [int(d * 1.2)]: never smaller than [d], and six
    fifths of it up to one pixel. *)
Lemma enlarged_side (d : Z) :
  1 <= d < 2 ^ 30 ->
  exists d', overlap_height_of d lit_1_2 = Ok d' /\
             d <= d' /\ 6 * d / 5 - 1 <= d' <= (6 * d + 4) / 5.
Proof.
  intros Hd. change (2 ^ 30) with 1073741824 in Hd.
  destruct (int_mul_finite_between d false 5404319552844595 (-52)
              d ((6 * d + 4) / 5)) as (a & Ea & Ha).
  - change (2 ^ 53) with 9007199254740992. lia.
  - lia.
  - lia.
  - change (2 ^ 53) with 9007199254740992. euclid_lia.
  - change (2 ^ (- -52)) with 4503599627370496. euclid_lia.
  - destruct (int_mul_finite_between d false 5404319552844595 (-52)
                (6 * d / 5 - 1) ((6 * d + 4) / 5)) as (b & Eb & Hb).
    + change (2 ^ 53) with 9007199254740992. lia.
    + lia.
    + euclid_lia.
    + change (2 ^ 53) with 9007199254740992. euclid_lia.
    + change (2 ^ (- -52)) with 4503599627370496. euclid_lia.
    + destruct (Z.ltb_spec d 0); [lia|]. cbn [xorb] in Ea, Eb.
      unfold lit_1_2. rewrite Ea in Eb. injection Eb as <-.
      exists a. split; [exact Ea|]. lia.
Qed.

Lemma ui_bind_ok {A B : Type} (m : ui A) (a : A) (k : A -> ui B)
    (w w' : world) :
  m w = (Ok a, w') -> (x <~~ m ;; k x) w = k a w'.
Proof. intros E. unfold ui_bind. rewrite E. reflexivity. Qed.

Lemma ui_bind_raise {A B : Type} (m : ui A) (e : exn) (k : A -> ui B)
    (w w' : world) :
  m w = (Raise e, w') -> (x <~~ m ;; k x) w = (Raise e, w').
Proof. intros E. unfold ui_bind. rewrite E. reflexivity. Qed.

Section ScriptFacts.

Variable pil_open : bytes -> result Image.
Variable pil_convert : Picture -> str -> result Picture.
Variable pil_save : Picture -> str -> Z -> result bytes.
Variable chat_groq_init : ChatGroq -> result unit.
Variable remote : list request -> request -> result str.
Variable ocr_processor : OCRProcessor.

(** The sidebar for an upload whose enlarged size and stripes are known. *)
Lemma sidebar_upload (file : bytes) (size : Image) (nw nh : Z)
    (boxes : list Stripe) (w : world) :
  pil_open file = Ok size ->
  overlap_height_of (width size) lit_1_2 = Ok nw ->
  overlap_height_of (height size) lit_1_2 = Ok nh ->
  1 <= nw -> 1 <= nh ->
  split_image_into_horizontal_stripes {| width := nw; height := nh |}
    default_stripe_count default_overlap = Ok boxes ->
  sidebar pil_open (Some file) w
  = (Ok (Some (Cropped (Resized (Opened file size) nw nh) <$> boxes)),
     {| sent := sent w;
        screen := screen w
                  ++ [ st_markdown true (utf8 "#### Upload da Imagem") false;
                       st_file_uploader (utf8 "Carregue uma imagem 🖼️")
                         [utf8 "jpg"; utf8 "jpeg"; utf8 "png"];
                       st_image (Resized (Opened file size) nw nh)
                         (utf8 "Uploaded Image") true ] |}).
Proof.
  intros Hopen Enw Enh Hnw Hnh Es. unfold sidebar.
  rewrite !ui_bind_show.
  rewrite (ui_bind_result_ok _ size) by exact Hopen.
  cbn [picture_size].
  rewrite (ui_bind_result_ok _ nw) by exact Enw.
  rewrite (ui_bind_result_ok _ nh) by exact Enh.
  rewrite (ui_bind_result_ok _ (Resized (Opened file size) nw nh)).
  2:{ unfold resize. destruct (Z.ltb_spec nw 1); [lia|].
      destruct (Z.ltb_spec nh 1); [lia|]. reflexivity. }
  rewrite ui_bind_show.
  rewrite (ui_bind_result_ok _
             (Cropped (Resized (Opened file size) nw nh) <$> boxes)).
  2:{ unfold split_picture, image_of. cbn [picture_size fst snd].
      rewrite Es. reflexivity. }
  unfold ui_ret. cbn [sent screen]. rewrite <- !app_assoc. reflexivity.
Qed.


(** The loops over five stripes whose remote calls are all answered. *)
Lemma five_stripes_answered (s1 s2 s3 s4 s5 : Picture)
    (e1 e2 e3 e4 e5 : str) (answers : list str) (w : world) :
  chat_groq_init (groq_client (groq_api_key ocr_processor) script_ocr_model)
  = Ok tt ->
  encoding_of pil_convert pil_save s1 = Ok e1 ->
  encoding_of pil_convert pil_save s2 = Ok e2 ->
  encoding_of pil_convert pil_save s3 = Ok e3 ->
  encoding_of pil_convert pil_save s4 = Ok e4 ->
  encoding_of pil_convert pil_save s5 = Ok e5 ->
  replies remote (sent w)
    (ocr_request (groq_api_key ocr_processor) script_ocr_model
       <$> [e1; e2; e3; e4; e5]) = Ok answers ->
  for_runs pil_convert pil_save chat_groq_init remote ocr_processor
    (range_from 1 (1 + 1)) 5 [s1; s2; s3; s4; s5] 0 [] w
  = (Ok (5, answers),
     {| sent := sent w
                ++ (ocr_request (groq_api_key ocr_processor) script_ocr_model
                      <$> [e1; e2; e3; e4; e5]);
        screen := screen w ++ five_stripes_events |}).
Proof.
  intros Hinit H1 H2 H3 H4 H5 Hrep.
  set (req := ocr_request (groq_api_key ocr_processor) script_ocr_model) in *.
  cbn [fmap list_fmap replies] in Hrep |- *.
  destruct (remote (sent w) (req e1)) as [a1|] eqn:R1; [|discriminate].
  cbn [bind] in Hrep.
  destruct (remote ((sent w ++ [req e1])) (req e2)) as [a2|] eqn:R2;
    [|discriminate].
  cbn [bind] in Hrep.
  destruct (remote ((sent w ++ [req e1]) ++ [req e2]) (req e3)) as [a3|] eqn:R3;
    [|discriminate].
  cbn [bind] in Hrep.
  destruct (remote (((sent w ++ [req e1]) ++ [req e2]) ++ [req e3]) (req e4))
    as [a4|] eqn:R4; [|discriminate].
  cbn [bind] in Hrep.
  destruct (remote ((((sent w ++ [req e1]) ++ [req e2]) ++ [req e3])
                    ++ [req e4]) (req e5)) as [a5|] eqn:R5; [|discriminate].
  cbn [bind] in Hrep. injection Hrep as <-.
  change (range_from 1 (1 + 1)) with [1]. cbn [for_runs enumerate].
  assert (Hloop :
    for_stripes pil_convert pil_save chat_groq_init remote ocr_processor 1 5
      [(1, s1); (1 + 1, s2); (1 + 1 + 1, s3); (1 + 1 + 1 + 1, s4);
       (1 + 1 + 1 + 1 + 1, s5)] 0 [] w
    = (Ok (5, [strip a1; strip a2; strip a3; strip a4; strip a5]),
       {| sent := sent w ++ [req e1; req e2; req e3; req e4; req e5];
          screen := screen w ++ five_stripes_events |})).
  2:{ rewrite (ui_bind_ok _ _ _ _ _ Hloop). reflexivity. }
  rewrite (for_stripes_answered pil_convert pil_save chat_groq_init remote
             ocr_processor 5 1 s1 _ 0 [] w
             (S754_finite false 7205759403792794 (-55)) 20 e1 a1);
    [|reflexivity|reflexivity|exact Hinit|exact H1|exact R1].
  rewrite (for_stripes_answered pil_convert pil_save chat_groq_init remote
             ocr_processor 5 (1 + 1) s2 _ (0 + 1) _ _
             (S754_finite false 7205759403792794 (-54)) 40 e2 a2);
    [|reflexivity|reflexivity|exact Hinit|exact H2|exact R2].
  rewrite (for_stripes_answered pil_convert pil_save chat_groq_init remote
             ocr_processor 5 (1 + 1 + 1) s3 _ (0 + 1 + 1) _ _
             (S754_finite false 5404319552844595 (-53)) 60 e3 a3);
    [|reflexivity|reflexivity|exact Hinit|exact H3|exact R3].
  rewrite (for_stripes_answered pil_convert pil_save chat_groq_init remote
             ocr_processor 5 (1 + 1 + 1 + 1) s4 _ (0 + 1 + 1 + 1) _ _
             (S754_finite false 7205759403792794 (-53)) 80 e4 a4);
    [|reflexivity|reflexivity|exact Hinit|exact H4|exact R4].
  rewrite (for_stripes_answered pil_convert pil_save chat_groq_init remote
             ocr_processor 5 (1 + 1 + 1 + 1 + 1) s5 _ (0 + 1 + 1 + 1 + 1) _ _
             PyFloat.one 100 e5 a5);
    [|reflexivity|reflexivity|exact Hinit|exact H5|exact R5].
  cbn [for_stripes sent screen]. unfold ui_ret, five_stripes_events.
  rewrite <- !app_assoc. reflexivity.
Qed.


(** The main area for five stripes, when every call is answered. *)
Lemma results_answered (s1 s2 s3 s4 s5 : Picture) (e1 e2 e3 e4 e5 : str)
    (answers : list str) (table : str) (data : bytes) (w : world) :
  chat_groq_init (groq_client (groq_api_key ocr_processor) script_ocr_model)
  = Ok tt ->
  chat_groq_init (groq_client (groq_api_key ocr_processor) script_table_model)
  = Ok tt ->
  encoding_of pil_convert pil_save s1 = Ok e1 ->
  encoding_of pil_convert pil_save s2 = Ok e2 ->
  encoding_of pil_convert pil_save s3 = Ok e3 ->
  encoding_of pil_convert pil_save s4 = Ok e4 ->
  encoding_of pil_convert pil_save s5 = Ok e5 ->
  replies remote (sent w)
    (ocr_request (groq_api_key ocr_processor) script_ocr_model
       <$> [e1; e2; e3; e4; e5]) = Ok answers ->
  remote
    (sent w ++ (ocr_request (groq_api_key ocr_processor) script_ocr_model
                  <$> [e1; e2; e3; e4; e5]))
    (table_request (groq_api_key ocr_processor) script_table_model answers)
  = Ok table ->
  encode_utf8 (strip table) = Ok data ->
  results pil_convert pil_save chat_groq_init remote ocr_processor
    [s1; s2; s3; s4; s5] w
  = (Ok tt,
     {| sent := sent w
                ++ (ocr_request (groq_api_key ocr_processor) script_ocr_model
                      <$> [e1; e2; e3; e4; e5])
                ++ [table_request (groq_api_key ocr_processor)
                      script_table_model answers];
        screen := screen w
                  ++ [ st_markdown false (utf8 "#### OCR e Resultados") false;
                       st_progress (py_int 0); st_empty ]
                  ++ five_stripes_events
                  ++ closing_events (strip table) data |}).
Proof.
  intros Hocr Htab H1 H2 H3 H4 H5 Hrep Htable Hdata.
  unfold results. rewrite !ui_bind_show.
  change (Z.of_nat (length [s1; s2; s3; s4; s5]) * 1) with 5.
  erewrite ui_bind_ok.
  2:{ apply (five_stripes_answered s1 s2 s3 s4 s5 e1 e2 e3 e4 e5 answers);
        assumption. }
  cbn [snd]. rewrite !ui_bind_show.
  set (reqs := ocr_request (groq_api_key ocr_processor) script_ocr_model
                 <$> [e1; e2; e3; e4; e5]) in *.
  rewrite (ui_bind_io_ok _ (strip table)
             ((sent w ++ reqs)
              ++ [table_request (groq_api_key ocr_processor) script_table_model
                   answers])).
  2:{ cbn [sent]. rewrite format_to_table_run, Htab. cbn zeta.
      rewrite Htable. reflexivity. }
  rewrite ui_bind_show.
  rewrite (ui_bind_result_ok _ data) by exact Hdata.
  unfold show, closing_events. cbn [sent screen].
  rewrite <- !app_assoc. reflexivity.
Qed.

End ScriptFacts.

(** X16: the script enlarges the upload by the factor 1.2: each side of the
    image shown and split is [int(d * 1.2)], which is never smaller than [d]
    and is six fifths of [d] up to one pixel. *)
Theorem enlarged_side_is_six_fifths (d : Z) :
  1 <= d < 2 ^ 30 ->
  exists d', overlap_height_of d lit_1_2 = Ok d' /\
             d <= d' /\ 6 * d / 5 - 1 <= d' <= (6 * d + 4) / 5.
Proof. apply enlarged_side. Qed.

Lemma enlarged_side_is_six_fifths_witness :
  exists d', overlap_height_of 500 lit_1_2 = Ok d' /\
             500 <= d' /\ 6 * 500 / 5 - 1 <= d' <= (6 * 500 + 4) / 5.
Proof.
  apply (enlarged_side_is_six_fifths 500).
  change (2 ^ 30) with 1073741824. lia.
Defined.

(** X17: one run of the script on an uploaded image (sides from 1 to below
    2^30, both clients buildable): the image is enlarged, cut into five
    stripes with the default settings, and as long as every stripe encodes
    and every call is answered the script sends the five OCR requests in
    stripe order, then one consolidation request holding the five trimmed
    answers in that order, and nothing else; it shows the progress a fifth
    at a time, the trimmed table, and a download button with the table's
    UTF-8 bytes. *)
Theorem script_runs_pipeline
    (pil_open : bytes -> result Image)
    (pil_convert : Picture -> str -> result Picture)
    (pil_save : Picture -> str -> Z -> result bytes)
    (chat_groq_init : ChatGroq -> result unit)
    (remote : list request -> request -> result str)
    (ocr_processor : OCRProcessor)
    (file : bytes) (size : Image) (w : world) :
  pil_open file = Ok size ->
  1 <= width size < 2 ^ 30 -> 1 <= height size < 2 ^ 30 ->
  chat_groq_init (groq_client (groq_api_key ocr_processor) script_ocr_model)
  = Ok tt ->
  chat_groq_init (groq_client (groq_api_key ocr_processor) script_table_model)
  = Ok tt ->
  exists new_width new_height boxes,
    overlap_height_of (width size) lit_1_2 = Ok new_width /\
    overlap_height_of (height size) lit_1_2 = Ok new_height /\
    split_image_into_horizontal_stripes
      {| width := new_width; height := new_height |}
      default_stripe_count default_overlap = Ok boxes /\
    length boxes = 5%nat /\
    let image := Resized (Opened file size) new_width new_height in
    forall (encodings answers : list str) (table : str) (data : bytes),
      Forall2 (fun box encoded =>
                 encoding_of pil_convert pil_save (Cropped image box)
                 = Ok encoded) boxes encodings ->
      let requests :=
        ocr_request (groq_api_key ocr_processor) script_ocr_model
          <$> encodings in
      replies remote (sent w) requests = Ok answers ->
      remote (sent w ++ requests)
        (table_request (groq_api_key ocr_processor) script_table_model
           answers) = Ok table ->
      encode_utf8 (strip table) = Ok data ->
      script pil_open pil_convert pil_save chat_groq_init remote ocr_processor
        (Some file) w
      = (Ok tt,
         {| sent := sent w ++ requests
                    ++ [table_request (groq_api_key ocr_processor)
                          script_table_model answers];
            screen := screen w ++ opening_events image ++ five_stripes_events
                      ++ closing_events (strip table) data |}).
Proof.
  intros Hopen Hw Hh Hocr Htab.
  destruct (enlarged_side _ Hw) as (nw & Enw & Hnw & _ & Hnw').
  destruct (enlarged_side _ Hh) as (nh & Enh & Hnh & _ & Hnh').
  assert (Hok : image_ok {| width := nw; height := nh |}).
  { unfold image_ok; cbn [width height].
    change (2 ^ 30) with 1073741824 in *. change (2 ^ 31) with 2147483648.
    split; euclid_lia. }
  destruct (split_unit_interval {| width := nw; height := nh |} 5
              PyFloat.lit_0_1 Hok ltac:(lia) eq_refl eq_refl)
    as (p & oh & _ & _ & _ & Es).
  cbn [width height] in Es. change (range 5) with [0; 1; 2; 3; 4] in Es.
  cbn [fmap list_fmap] in Es.
  exists nw, nh. eexists. split; [exact Enw|]. split; [exact Enh|].
  split; [exact Es|]. split; [reflexivity|].
  intros image encodings answers table data Henc requests Hrep Htable Hdata.
  generalize dependent (stripe_bounds nw nh (nh / 5) oh 0). intros b1.
  generalize dependent (stripe_bounds nw nh (nh / 5) oh 1). intros b2.
  generalize dependent (stripe_bounds nw nh (nh / 5) oh 2). intros b3.
  generalize dependent (stripe_bounds nw nh (nh / 5) oh 3). intros b4.
  generalize dependent (stripe_bounds nw nh (nh / 5) oh 4). intros b5.
  intros Es Henc.
  apply Forall2_cons_inv_l in Henc. destruct Henc as (e1 & k1 & H1 & Henc & ->).
  apply Forall2_cons_inv_l in Henc. destruct Henc as (e2 & k2 & H2 & Henc & ->).
  apply Forall2_cons_inv_l in Henc. destruct Henc as (e3 & k3 & H3 & Henc & ->).
  apply Forall2_cons_inv_l in Henc. destruct Henc as (e4 & k4 & H4 & Henc & ->).
  apply Forall2_cons_inv_l in Henc. destruct Henc as (e5 & k5 & H5 & Henc & ->).
  apply Forall2_nil_inv_l in Henc. subst k5.
  unfold script. rewrite !ui_bind_show.
  erewrite ui_bind_ok.
  2:{ apply (sidebar_upload pil_open file size nw nh [b1; b2; b3; b4; b5]);
        try assumption; lia. }
  cbn [fmap list_fmap].
  rewrite (results_answered pil_convert pil_save chat_groq_init remote
             ocr_processor _ _ _ _ _ e1 e2 e3 e4 e5 answers table data);
    try assumption.
  cbn [sent screen]. unfold opening_events, requests.
  rewrite <- !app_assoc. reflexivity.
Qed.

(** One more pass of the inner loop, answered or refused, for the progress
    and the percentage of that pass. *)
Ltac stripe_answered i step progress percent Hinit Henc R :=
  erewrite (for_stripes_answered _ _ _ _ _ 5 i _ _ step _ _ progress percent);
  [|reflexivity|reflexivity|exact Hinit|exact Henc|exact R].

Ltac stripe_refused i step progress percent Hinit Henc R :=
  erewrite (for_stripes_refused _ _ _ _ _ 5 i _ _ step _ _ progress percent);
  [|reflexivity|reflexivity|exact Hinit|exact Henc|exact R].

Ltac stripes_shown :=
  cbn [sent screen]; unfold five_stripes_events;
  rewrite <- ?app_assoc; reflexivity.

Section ScriptFailure.

Variable pil_open : bytes -> result Image.
Variable pil_convert : Picture -> str -> result Picture.
Variable pil_save : Picture -> str -> Z -> result bytes.
Variable chat_groq_init : ChatGroq -> result unit.
Variable remote : list request -> request -> result str.
Variable ocr_processor : OCRProcessor.

(** The loops over five stripes when the first [k] remote calls are
    answered and the next one fails: the failing request is the last one
    sent, and the progress of the stripes after it is never shown. *)
Lemma five_stripes_refused_at (s1 s2 s3 s4 s5 : Picture)
    (e1 e2 e3 e4 e5 : str) (k : nat) (answers : list str) (r : request)
    (e : exn) (w : world) :
  chat_groq_init (groq_client (groq_api_key ocr_processor) script_ocr_model)
  = Ok tt ->
  encoding_of pil_convert pil_save s1 = Ok e1 ->
  encoding_of pil_convert pil_save s2 = Ok e2 ->
  encoding_of pil_convert pil_save s3 = Ok e3 ->
  encoding_of pil_convert pil_save s4 = Ok e4 ->
  encoding_of pil_convert pil_save s5 = Ok e5 ->
  let requests :=
    ocr_request (groq_api_key ocr_processor) script_ocr_model
      <$> [e1; e2; e3; e4; e5] in
  replies remote (sent w) (take k requests) = Ok answers ->
  requests !! k = Some r ->
  remote (sent w ++ take k requests) r = Raise e ->
  for_runs pil_convert pil_save chat_groq_init remote ocr_processor
    (range_from 1 (1 + 1)) 5 [s1; s2; s3; s4; s5] 0 [] w
  = (Raise e,
     {| sent := sent w ++ take (S k) requests;
        screen := screen w ++ take (3 * S k) five_stripes_events |}).
Proof.
  intros Hinit H1 H2 H3 H4 H5 requests Hans Hr Hfail. unfold requests in *.
  clear requests.
  set (req := ocr_request (groq_api_key ocr_processor) script_ocr_model) in *.
  cbn [fmap list_fmap] in Hans, Hr, Hfail |- *.
  change (range_from 1 (1 + 1)) with [1]. cbn [for_runs enumerate].
  assert (Hbind : forall w',
    for_stripes pil_convert pil_save chat_groq_init remote ocr_processor 1 5
      [(1, s1); (1 + 1, s2); (1 + 1 + 1, s3); (1 + 1 + 1 + 1, s4);
       (1 + 1 + 1 + 1 + 1, s5)] 0 [] w = (Raise e, w') ->
    (state <~~ for_stripes pil_convert pil_save chat_groq_init remote
                 ocr_processor 1 5
                 [(1, s1); (1 + 1, s2); (1 + 1 + 1, s3); (1 + 1 + 1 + 1, s4);
                  (1 + 1 + 1 + 1 + 1, s5)] 0 [] ;;
     ui_ret (fst state, snd state)) w = (Raise e, w')).
  { intros w' E. apply ui_bind_raise. exact E. }
  apply Hbind. clear Hbind.
  destruct k as [|[|[|[|[|k]]]]]; cbn [lookup list_lookup] in Hr;
    [| | | | |discriminate Hr]; injection Hr as <-;
    cbn [take firstn replies] in Hans, Hfail.
  - rewrite app_nil_r in Hfail.
    stripe_refused 1 0 (S754_finite false 7205759403792794 (-55)) 20
      Hinit H1 Hfail.
    stripes_shown.
  - destruct (remote (sent w) (req e1)) as [a1|] eqn:R1; [|discriminate Hans].
    stripe_answered 1 0 (S754_finite false 7205759403792794 (-55)) 20
      Hinit H1 R1.
    stripe_refused (1 + 1) (0 + 1) (S754_finite false 7205759403792794 (-54))
      40 Hinit H2 Hfail.
    stripes_shown.
  - destruct (remote (sent w) (req e1)) as [a1|] eqn:R1; [|discriminate Hans].
    cbn [bind] in Hans.
    destruct (remote (sent w ++ [req e1]) (req e2)) as [a2|] eqn:R2;
      [|discriminate Hans].
    replace (sent w ++ [req e1; req e2])
      with ((sent w ++ [req e1]) ++ [req e2]) in Hfail
      by (rewrite <- ?app_assoc; reflexivity).
    stripe_answered 1 0 (S754_finite false 7205759403792794 (-55)) 20
      Hinit H1 R1.
    stripe_answered (1 + 1) (0 + 1)
      (S754_finite false 7205759403792794 (-54)) 40 Hinit H2 R2.
    stripe_refused (1 + 1 + 1) (0 + 1 + 1)
      (S754_finite false 5404319552844595 (-53)) 60 Hinit H3 Hfail.
    stripes_shown.
  - destruct (remote (sent w) (req e1)) as [a1|] eqn:R1; [|discriminate Hans].
    cbn [bind] in Hans.
    destruct (remote (sent w ++ [req e1]) (req e2)) as [a2|] eqn:R2;
      [|discriminate Hans].
    cbn [bind] in Hans.
    destruct (remote ((sent w ++ [req e1]) ++ [req e2]) (req e3))
      as [a3|] eqn:R3; [|discriminate Hans].
    replace (sent w ++ [req e1; req e2; req e3])
      with (((sent w ++ [req e1]) ++ [req e2]) ++ [req e3]) in Hfail
      by (rewrite <- ?app_assoc; reflexivity).
    stripe_answered 1 0 (S754_finite false 7205759403792794 (-55)) 20
      Hinit H1 R1.
    stripe_answered (1 + 1) (0 + 1)
      (S754_finite false 7205759403792794 (-54)) 40 Hinit H2 R2.
    stripe_answered (1 + 1 + 1) (0 + 1 + 1)
      (S754_finite false 5404319552844595 (-53)) 60 Hinit H3 R3.
    stripe_refused (1 + 1 + 1 + 1) (0 + 1 + 1 + 1)
      (S754_finite false 7205759403792794 (-53)) 80 Hinit H4 Hfail.
    stripes_shown.
  - destruct (remote (sent w) (req e1)) as [a1|] eqn:R1; [|discriminate Hans].
    cbn [bind] in Hans.
    destruct (remote (sent w ++ [req e1]) (req e2)) as [a2|] eqn:R2;
      [|discriminate Hans].
    cbn [bind] in Hans.
    destruct (remote ((sent w ++ [req e1]) ++ [req e2]) (req e3))
      as [a3|] eqn:R3; [|discriminate Hans].
    cbn [bind] in Hans.
    destruct (remote (((sent w ++ [req e1]) ++ [req e2]) ++ [req e3])
                (req e4)) as [a4|] eqn:R4; [|discriminate Hans].
    replace (sent w ++ [req e1; req e2; req e3; req e4])
      with ((((sent w ++ [req e1]) ++ [req e2]) ++ [req e3]) ++ [req e4])
      in Hfail by (rewrite <- ?app_assoc; reflexivity).
    stripe_answered 1 0 (S754_finite false 7205759403792794 (-55)) 20
      Hinit H1 R1.
    stripe_answered (1 + 1) (0 + 1)
      (S754_finite false 7205759403792794 (-54)) 40 Hinit H2 R2.
    stripe_answered (1 + 1 + 1) (0 + 1 + 1)
      (S754_finite false 5404319552844595 (-53)) 60 Hinit H3 R3.
    stripe_answered (1 + 1 + 1 + 1) (0 + 1 + 1 + 1)
      (S754_finite false 7205759403792794 (-53)) 80 Hinit H4 R4.
    stripe_refused (1 + 1 + 1 + 1 + 1) (0 + 1 + 1 + 1 + 1) PyFloat.one 100
      Hinit H5 Hfail.
    stripes_shown.
Qed.

End ScriptFailure.

Lemma script_runs_pipeline_witness :
  exists new_width new_height boxes,
    overlap_height_of (width {| width := 500; height := 1000 |}) lit_1_2
    = Ok new_width /\
    overlap_height_of (height {| width := 500; height := 1000 |}) lit_1_2
    = Ok new_height /\
    split_image_into_horizontal_stripes
      {| width := new_width; height := new_height |}
      default_stripe_count default_overlap = Ok boxes /\
    length boxes = 5%nat /\
    let image :=
      Resized (Opened sample_file {| width := 500; height := 1000 |})
        new_width new_height in
    forall (encodings answers : list str) (table : str) (data : bytes),
      Forall2 (fun box encoded =>
                 encoding_of picture_convert picture_save (Cropped image box)
                 = Ok encoded) boxes encodings ->
      let requests :=
        ocr_request (groq_api_key sample_processor) script_ocr_model
          <$> encodings in
      replies (canned sample_answer) (sent fresh_world) requests = Ok answers ->
      canned sample_answer (sent fresh_world ++ requests)
        (table_request (groq_api_key sample_processor) script_table_model
           answers) = Ok table ->
      encode_utf8 (strip table) = Ok data ->
      script sample_open picture_convert picture_save accept_any
        (canned sample_answer) sample_processor (Some sample_file) fresh_world
      = (Ok tt,
         {| sent := sent fresh_world ++ requests
                    ++ [table_request (groq_api_key sample_processor)
                          script_table_model answers];
            screen := screen fresh_world ++ opening_events image
                      ++ five_stripes_events
                      ++ closing_events (strip table) data |}).
Proof.
  apply (script_runs_pipeline sample_open picture_convert picture_save
           accept_any (canned sample_answer) sample_processor sample_file
           {| width := 500; height := 1000 |} fresh_world).
  - reflexivity.
  - cbn. change (2 ^ 30) with 1073741824. lia.
  - cbn. change (2 ^ 30) with 1073741824. lia.
  - reflexivity.
  - reflexivity.
Defined.

(** X18: when the first [k] remote OCR calls are answered and the next one
    fails, the script stops there with that error: the requests sent are
    the first [k + 1] of the five and no other, the screen shows the
    progress of the first [k + 1] stripes and nothing after it, and no
    consolidation request, table or download button follows. *)
Theorem script_stops_at_refused_call
    (pil_open : bytes -> result Image)
    (pil_convert : Picture -> str -> result Picture)
    (pil_save : Picture -> str -> Z -> result bytes)
    (chat_groq_init : ChatGroq -> result unit)
    (remote : list request -> request -> result str)
    (ocr_processor : OCRProcessor)
    (file : bytes) (size : Image) (w : world) :
  pil_open file = Ok size ->
  1 <= width size < 2 ^ 30 -> 1 <= height size < 2 ^ 30 ->
  chat_groq_init (groq_client (groq_api_key ocr_processor) script_ocr_model)
  = Ok tt ->
  exists new_width new_height boxes,
    overlap_height_of (width size) lit_1_2 = Ok new_width /\
    overlap_height_of (height size) lit_1_2 = Ok new_height /\
    split_image_into_horizontal_stripes
      {| width := new_width; height := new_height |}
      default_stripe_count default_overlap = Ok boxes /\
    let image := Resized (Opened file size) new_width new_height in
    forall (encodings : list str) (k : nat) (answers : list str)
           (refused : request) (e : exn),
      Forall2 (fun box encoded =>
                 encoding_of pil_convert pil_save (Cropped image box)
                 = Ok encoded) boxes encodings ->
      let requests :=
        ocr_request (groq_api_key ocr_processor) script_ocr_model
          <$> encodings in
      replies remote (sent w) (take k requests) = Ok answers ->
      requests !! k = Some refused ->
      remote (sent w ++ take k requests) refused = Raise e ->
      script pil_open pil_convert pil_save chat_groq_init remote
        ocr_processor (Some file) w
      = (Raise e,
         {| sent := sent w ++ take k requests ++ [refused];
            screen := screen w ++ opening_events image
                      ++ take (3 * (k + 1)) five_stripes_events |}).
Proof.
  intros Hopen Hw Hh Hocr.
  destruct (enlarged_side _ Hw) as (nw & Enw & Hnw & _ & Hnw').
  destruct (enlarged_side _ Hh) as (nh & Enh & Hnh & _ & Hnh').
  assert (Hok : image_ok {| width := nw; height := nh |}).
  { unfold image_ok; cbn [width height].
    change (2 ^ 30) with 1073741824 in *. change (2 ^ 31) with 2147483648.
    split; euclid_lia. }
  destruct (split_unit_interval {| width := nw; height := nh |} 5
              PyFloat.lit_0_1 Hok ltac:(lia) eq_refl eq_refl)
    as (p & oh & _ & _ & _ & Es).
  cbn [width height] in Es. change (range 5) with [0; 1; 2; 3; 4] in Es.
  cbn [fmap list_fmap] in Es.
  exists nw, nh. eexists. split; [exact Enw|]. split; [exact Enh|].
  split; [exact Es|].
  intros image encodings k answers refused e Henc requests Hans Hr Hfail.
  generalize dependent (stripe_bounds nw nh (nh / 5) oh 0). intros b1.
  generalize dependent (stripe_bounds nw nh (nh / 5) oh 1). intros b2.
  generalize dependent (stripe_bounds nw nh (nh / 5) oh 2). intros b3.
  generalize dependent (stripe_bounds nw nh (nh / 5) oh 3). intros b4.
  generalize dependent (stripe_bounds nw nh (nh / 5) oh 4). intros b5.
  intros Es Henc.
  apply Forall2_cons_inv_l in Henc. destruct Henc as (e1 & k1 & H1 & Henc & ->).
  apply Forall2_cons_inv_l in Henc. destruct Henc as (e2 & k2 & H2 & Henc & ->).
  apply Forall2_cons_inv_l in Henc. destruct Henc as (e3 & k3 & H3 & Henc & ->).
  apply Forall2_cons_inv_l in Henc. destruct Henc as (e4 & k4 & H4 & Henc & ->).
  apply Forall2_cons_inv_l in Henc. destruct Henc as (e5 & k5 & H5 & Henc & ->).
  apply Forall2_nil_inv_l in Henc. subst k5.
  pose proof (five_stripes_refused_at pil_convert pil_save chat_groq_init
                remote ocr_processor _ _ _ _ _ e1 e2 e3 e4 e5 k answers
                refused e
                {| sent := sent w;
                   screen := screen w ++ opening_events image |}
                Hocr H1 H2 H3 H4 H5 Hans Hr Hfail) as Hloop.
  unfold script. rewrite !ui_bind_show.
  erewrite ui_bind_ok.
  2:{ apply (sidebar_upload pil_open file size nw nh [b1; b2; b3; b4; b5]);
        try assumption; lia. }
  cbn [fmap list_fmap]. unfold results. rewrite !ui_bind_show.
  cbn [sent screen]. rewrite <- !app_assoc. cbn [app].
  erewrite ui_bind_raise; [|exact Hloop].
  cbn [sent screen]. rewrite <- !app_assoc.
  fold requests. rewrite (take_S_r _ _ _ Hr).
  replace (k + 1)%nat with (S k) by lia. reflexivity.
Qed.

Lemma script_stops_at_refused_call_witness :
  exists new_width new_height boxes,
    overlap_height_of (width {| width := 500; height := 1000 |}) lit_1_2
    = Ok new_width /\
    overlap_height_of (height {| width := 500; height := 1000 |}) lit_1_2
    = Ok new_height /\
    split_image_into_horizontal_stripes
      {| width := new_width; height := new_height |}
      default_stripe_count default_overlap = Ok boxes /\
    let image :=
      Resized (Opened sample_file {| width := 500; height := 1000 |})
        new_width new_height in
    forall (encodings : list str) (k : nat) (answers : list str)
           (refused : request) (e : exn),
      Forall2 (fun box encoded =>
                 encoding_of picture_convert picture_save (Cropped image box)
                 = Ok encoded) boxes encodings ->
      let requests :=
        ocr_request (groq_api_key sample_processor) script_ocr_model
          <$> encodings in
      replies refuse_third (sent fresh_world) (take k requests) = Ok answers ->
      requests !! k = Some refused ->
      refuse_third (sent fresh_world ++ take k requests) refused = Raise e ->
      script sample_open picture_convert picture_save accept_any
        refuse_third sample_processor (Some sample_file) fresh_world
      = (Raise e,
         {| sent := sent fresh_world ++ take k requests ++ [refused];
            screen := screen fresh_world ++ opening_events image
                      ++ take (3 * (k + 1)) five_stripes_events |}).
Proof.
  apply (script_stops_at_refused_call sample_open picture_convert picture_save
           accept_any refuse_third sample_processor sample_file
           {| width := 500; height := 1000 |} fresh_world).
  - reflexivity.
  - cbn. change (2 ^ 30) with 1073741824. lia.
  - cbn. change (2 ^ 30) with 1073741824. lia.
  - reflexivity.
Defined.

(** X19: without an upload the script shows the title, the description, the
    sidebar heading, the uploader and the placeholder text, in this order,
    and sends nothing: no decoder, codec or remote call is reached. *)
Theorem script_without_upload_sends_nothing
    (pil_open : bytes -> result Image)
    (pil_convert : Picture -> str -> result Picture)
    (pil_save : Picture -> str -> Z -> result bytes)
    (chat_groq_init : ChatGroq -> result unit)
    (remote : list request -> request -> result str)
    (ocr_processor : OCRProcessor) (w : world) :
  script pil_open pil_convert pil_save chat_groq_init remote ocr_processor
    None w
  = (Ok tt,
     {| sent := sent w;
        screen := screen w
          ++ [ st_title (utf8 "OCR para Tabela com o Modelo Llama3.2 Vision");
               st_markdown false
                 (utf8 "Converta o conteúdo de uma imagem carregada em um formato de Tabela Estruturada.")
                 false;
               st_markdown true (utf8 "#### Upload da Imagem") false;
               st_file_uploader (utf8 "Carregue uma imagem 🖼️")
                 [utf8 "jpg"; utf8 "jpeg"; utf8 "png"];
               st_markdown false
                 (utf8 "O resultado será exibido aqui após carregar uma imagem.")
                 false ] |}).
Proof.
  unfold script, sidebar. rewrite !ui_bind_show.
  unfold ui_bind, ui_ret, show. cbn [sent screen].
  rewrite <- !app_assoc. reflexivity.
Qed.

(** A run of the script on the sample upload with a model that answers
    every call: six requests, and the download button holds the table. *)
Example script_sample_run :
  let run := script sample_open picture_convert picture_save accept_any
               (canned sample_answer) sample_processor (Some sample_file)
               fresh_world in
  fst run = Ok tt /\
  length (sent (snd run)) = 6%nat /\
  last (screen (snd run))
  = Some (st_download_button (utf8 "Download Tabela")
            (utf8 "| Name | Age |") (utf8 "tabela_consolidada.txt")
            (utf8 "text/plain")).
Proof. vm_compute. repeat split. Qed.

(** The same run with a model that fails on its third call: the run ends
    with the error after three requests, while the third stripe is shown as
    in progress. *)
Example script_sample_refused :
  let run := script sample_open picture_convert picture_save accept_any
               refuse_third sample_processor (Some sample_file)
               fresh_world in
  fst run = Raise GroqError /\
  length (sent (snd run)) = 3%nat /\
  last (screen (snd run)) = Some (sleep PyFloat.lit_0_1).
Proof. vm_compute. repeat split. Qed.

(** X20: an upload that cannot be opened as an image stops the script in the
    sidebar: the error leaves the script after the title, the description,
    the sidebar heading and the uploader are shown; no image or progress is
    shown and nothing is sent. *)
Theorem script_unreadable_upload_sends_nothing
    (pil_open : bytes -> result Image)
    (pil_convert : Picture -> str -> result Picture)
    (pil_save : Picture -> str -> Z -> result bytes)
    (chat_groq_init : ChatGroq -> result unit)
    (remote : list request -> request -> result str)
    (ocr_processor : OCRProcessor) (file : bytes) (e : exn) (w : world) :
  pil_open file = Raise e ->
  script pil_open pil_convert pil_save chat_groq_init remote ocr_processor
    (Some file) w
  = (Raise e,
     {| sent := sent w;
        screen := screen w
          ++ [ st_title (utf8 "OCR para Tabela com o Modelo Llama3.2 Vision");
               st_markdown false
                 (utf8 "Converta o conteúdo de uma imagem carregada em um formato de Tabela Estruturada.")
                 false;
               st_markdown true (utf8 "#### Upload da Imagem") false;
               st_file_uploader (utf8 "Carregue uma imagem 🖼️")
                 [utf8 "jpg"; utf8 "jpeg"; utf8 "png"] ] |}).
Proof.
  intros Hopen. unfold script. rewrite !ui_bind_show.
  erewrite ui_bind_raise.
  2:{ unfold sidebar. rewrite !ui_bind_show.
      rewrite (ui_bind_result_raise _ e) by exact Hopen. reflexivity. }
  cbn [sent screen]. rewrite <- !app_assoc. reflexivity.
Qed.

Lemma script_unreadable_upload_sends_nothing_witness :
  script (fun _ => Raise OSError) picture_convert picture_save accept_any
    (canned sample_answer) sample_processor (Some sample_file) fresh_world
  = (Raise OSError,
     {| sent := sent fresh_world;
        screen := screen fresh_world
          ++ [ st_title (utf8 "OCR para Tabela com o Modelo Llama3.2 Vision");
               st_markdown false
                 (utf8 "Converta o conteúdo de uma imagem carregada em um formato de Tabela Estruturada.")
                 false;
               st_markdown true (utf8 "#### Upload da Imagem") false;
               st_file_uploader (utf8 "Carregue uma imagem 🖼️")
                 [utf8 "jpg"; utf8 "jpeg"; utf8 "png"] ] |}).
Proof.
  apply (script_unreadable_upload_sends_nothing (fun _ => Raise OSError)
           picture_convert picture_save accept_any (canned sample_answer)
           sample_processor sample_file OSError fresh_world).
  reflexivity.
Defined.

(** * The missing credential *)

Lemma keeps_sent_ret {A : Type} (a : A) : keeps_sent (ui_ret a).
Proof. intros w. reflexivity. Qed.

Lemma keeps_sent_show (e : ui_event) : keeps_sent (show e).
Proof. intros w. reflexivity. Qed.

Lemma keeps_sent_result {A : Type} (r : result A) : keeps_sent (ui_result r).
Proof. intros w. reflexivity. Qed.

Lemma keeps_sent_bind {A B : Type} (m : ui A) (k : A -> ui B) :
  keeps_sent m -> (forall a, keeps_sent (k a)) ->
  keeps_sent (x <~~ m ;; k x).
Proof.
  intros Hm Hk w. unfold ui_bind. specialize (Hm w).
  destruct (m w) as [[a|e] w']; cbn [snd] in *.
  - rewrite Hk. exact Hm.
  - exact Hm.
Qed.

Section MissingKey.

Variable pil_open : bytes -> result Image.
Variable pil_convert : Picture -> str -> result Picture.
Variable pil_save : Picture -> str -> Z -> result bytes.
Variable chat_groq_init : ChatGroq -> result unit.
Variable remote : list request -> request -> result str.
Variable ocr_processor : OCRProcessor.

Hypothesis no_key : groq_api_key ocr_processor = None.
Hypothesis key_required :
  forall c : ChatGroq, api_key c = None -> is_ok (chat_groq_init c) = false.

Lemma client_without_key (model : str) :
  exists e, chat_groq_init (groq_client None model) = Raise e.
Proof.
  pose proof (key_required (groq_client None model) eq_refl) as H.
  destruct (chat_groq_init (groq_client None model)) as [[]|e];
    [discriminate H|].
  exists e. reflexivity.
Qed.

Lemma keeps_sent_ocr (stripe : Picture) (model : str) :
  keeps_sent (ui_io (ocr pil_convert pil_save chat_groq_init remote
                       ocr_processor stripe model)).
Proof.
  intros w. unfold ui_io. rewrite ocr_run, no_key.
  destruct (client_without_key model) as [e ->]. reflexivity.
Qed.

Lemma keeps_sent_format_to_table (markdown_runs : list str) (model : str) :
  keeps_sent (ui_io (format_to_table chat_groq_init remote ocr_processor
                       markdown_runs model)).
Proof.
  intros w. unfold ui_io. rewrite format_to_table_run, no_key.
  destruct (client_without_key model) as [e ->]. reflexivity.
Qed.

Lemma keeps_sent_for_stripes (run total_steps : Z)
    (items : list (Z * Picture)) :
  forall (step : Z) (markdown_runs : list str),
    keeps_sent (for_stripes pil_convert pil_save chat_groq_init remote
                  ocr_processor run total_steps items step markdown_runs).
Proof.
  induction items as [|[i stripe] rest IH]; intros step markdown_runs;
    cbn [for_stripes].
  - apply keeps_sent_ret.
  - apply keeps_sent_bind; [apply keeps_sent_result|intros progress].
    apply keeps_sent_bind; [apply keeps_sent_show|intros _].
    apply keeps_sent_bind; [apply keeps_sent_result|intros percent].
    apply keeps_sent_bind; [apply keeps_sent_show|intros _].
    apply keeps_sent_bind; [apply keeps_sent_show|intros _].
    apply keeps_sent_bind; [apply keeps_sent_ocr|intros stripe_markdown].
    apply IH.
Qed.

Lemma keeps_sent_for_runs (total_steps : Z) (stripes : list Picture)
    (runs : list Z) :
  forall (step : Z) (markdown_runs : list str),
    keeps_sent (for_runs pil_convert pil_save chat_groq_init remote
                  ocr_processor runs total_steps stripes step markdown_runs).
Proof.
  induction runs as [|run rest IH]; intros step markdown_runs; cbn [for_runs].
  - apply keeps_sent_ret.
  - apply keeps_sent_bind; [apply keeps_sent_for_stripes|intros state].
    apply IH.
Qed.

Lemma keeps_sent_sidebar (uploaded_file : option bytes) :
  keeps_sent (sidebar pil_open uploaded_file).
Proof.
  unfold sidebar.
  apply keeps_sent_bind; [apply keeps_sent_show|intros _].
  apply keeps_sent_bind; [apply keeps_sent_show|intros _].
  destruct uploaded_file as [file|]; [|apply keeps_sent_ret].
  apply keeps_sent_bind; [apply keeps_sent_result|intros size].
  cbn [picture_size].
  apply keeps_sent_bind; [apply keeps_sent_result|intros new_width].
  apply keeps_sent_bind; [apply keeps_sent_result|intros new_height].
  apply keeps_sent_bind; [apply keeps_sent_result|intros image].
  apply keeps_sent_bind; [apply keeps_sent_show|intros _].
  apply keeps_sent_bind; [apply keeps_sent_result|intros stripes].
  apply keeps_sent_ret.
Qed.

Lemma keeps_sent_results (stripes : list Picture) :
  keeps_sent (results pil_convert pil_save chat_groq_init remote
                ocr_processor stripes).
Proof.
  unfold results.
  apply keeps_sent_bind; [apply keeps_sent_show|intros _].
  apply keeps_sent_bind; [apply keeps_sent_show|intros _].
  apply keeps_sent_bind; [apply keeps_sent_show|intros _].
  apply keeps_sent_bind; [apply keeps_sent_for_runs|intros state].
  apply keeps_sent_bind; [apply keeps_sent_show|intros _].
  apply keeps_sent_bind; [apply keeps_sent_show|intros _].
  apply keeps_sent_bind; [apply keeps_sent_format_to_table|intros table].
  apply keeps_sent_bind; [apply keeps_sent_show|intros _].
  apply keeps_sent_bind; [apply keeps_sent_result|intros data].
  apply keeps_sent_show.
Qed.

(** Without a key the script never issues a remote call, whatever is
    uploaded. *)
Lemma keeps_sent_script (uploaded_file : option bytes) :
  keeps_sent (script pil_open pil_convert pil_save chat_groq_init remote
                ocr_processor uploaded_file).
Proof.
  unfold script.
  apply keeps_sent_bind; [apply keeps_sent_show|intros _].
  apply keeps_sent_bind; [apply keeps_sent_show|intros _].
  apply keeps_sent_bind; [apply keeps_sent_sidebar|intros [stripes|]].
  - apply keeps_sent_results.
  - apply keeps_sent_show.
Qed.

End MissingKey.

(** C9, as stated, does not hold: with the credential in neither the
    environment nor the [.env] file the start-up is not a fatal error; it
    returns a processor that holds no key. *)
Lemma startup_without_key_returns :
  startup ∅ ∅ = Ok {| groq_api_key := None |}.
Proof. reflexivity. Qed.

(** C9, amended: when the credential is absent from the environment and
    from the [.env] file, the start-up does not fail and the processor holds
    no key; the absence is fatal at the first use instead: [ocr] and
    [format_to_table] build the Groq client first, and as that constructor
    rejects a missing key, both raise its error before the image is encoded
    and before any remote call is attempted; a run of the script issues no
    remote call, whatever is uploaded. *)
Theorem missing_key_fatal_at_first_call (dotenv environ : gmap str str)
    (chat_groq_init : ChatGroq -> result unit) :
  environ !! utf8 "GROQ_API_KEY" = None ->
  dotenv !! utf8 "GROQ_API_KEY" = None ->
  (forall c : ChatGroq, api_key c = None -> is_ok (chat_groq_init c) = false) ->
  exists self,
    startup dotenv environ = Ok self /\
    groq_api_key self = None /\
    (forall (picture : Type)
            (pil_convert : picture -> str -> result picture)
            (pil_save : picture -> str -> Z -> result bytes)
            (remote : list request -> request -> result str)
            (image : picture) (markdown_runs : list str) (model : str)
            (log : list request),
     exists e,
       chat_groq_init (groq_client None model) = Raise e /\
       ocr pil_convert pil_save chat_groq_init remote self image model log
       = (Raise e, log) /\
       format_to_table chat_groq_init remote self markdown_runs model log
       = (Raise e, log)) /\
    (forall (pil_open : bytes -> result Image)
            (pil_convert : Picture -> str -> result Picture)
            (pil_save : Picture -> str -> Z -> result bytes)
            (remote : list request -> request -> result str)
            (uploaded_file : option bytes) (w : world),
     sent (snd (script pil_open pil_convert pil_save chat_groq_init remote
                  self uploaded_file w))
     = sent w).
Proof.
  intros Henv Hdot Hctor. exists {| groq_api_key := None |}.
  split; [|split; [reflexivity|split]].
  - unfold startup, OCRProcessor_init, GROQ_API_KEY, getenv, load_dotenv.
    replace ((environ ∪ dotenv) !! utf8 "GROQ_API_KEY") with (@None str);
      [reflexivity|].
    symmetry. apply lookup_union_None. split; assumption.
  - intros picture pil_convert pil_save remote image markdown_runs model log.
    destruct (client_without_key chat_groq_init Hctor model) as [e He].
    exists e. split; [exact He|].
    rewrite ocr_run, format_to_table_run. cbn [groq_api_key].
    rewrite He. split; reflexivity.
  - intros pil_open pil_convert pil_save remote uploaded_file w.
    apply (keeps_sent_script pil_open pil_convert pil_save chat_groq_init
             remote {| groq_api_key := None |} eq_refl Hctor).
Qed.

Lemma missing_key_fatal_at_first_call_witness :
  exists self,
    startup ∅ ∅ = Ok self /\
    groq_api_key self = None /\
    (forall (picture : Type)
            (pil_convert : picture -> str -> result picture)
            (pil_save : picture -> str -> Z -> result bytes)
            (remote : list request -> request -> result str)
            (image : picture) (markdown_runs : list str) (model : str)
            (log : list request),
     exists e,
       require_key (groq_client None model) = Raise e /\
       ocr pil_convert pil_save require_key remote self image model log
       = (Raise e, log) /\
       format_to_table require_key remote self markdown_runs model log
       = (Raise e, log)) /\
    (forall (pil_open : bytes -> result Image)
            (pil_convert : Picture -> str -> result Picture)
            (pil_save : Picture -> str -> Z -> result bytes)
            (remote : list request -> request -> result str)
            (uploaded_file : option bytes) (w : world),
     sent (snd (script pil_open pil_convert pil_save require_key remote
                  self uploaded_file w))
     = sent w).
Proof.
  apply (missing_key_fatal_at_first_call ∅ ∅ require_key).
  - reflexivity.
  - reflexivity.
  - intros c Hc. unfold require_key. rewrite Hc. reflexivity.
Defined.

(** A run on the sample upload without a key, under a constructor that
    insists on one: the constructor's error ends the run at the first
    stripe, and nothing has been sent. *)
Example script_sample_without_key :
  let run := script sample_open picture_convert picture_save require_key
               (canned sample_answer) {| groq_api_key := None |}
               (Some sample_file) fresh_world in
  fst run = Raise GroqError /\
  sent (snd run) = [] /\
  last (screen (snd run)) = Some (sleep PyFloat.lit_0_1).
Proof. vm_compute. repeat split. Qed.
